(** * The sales ETL pipeline of [Root/ETL.py]: bronze, silver and gold stages

    The pipeline reads two JSON record files into pandas frames, cleans
    them in place (silver), derives a star schema from the cleaned sales
    frame (gold) and writes every stage to CSV.  This development embeds
    the frames, the pandas operations the script calls and the three
    stages, and proves the row-count, key and frame properties claimed of
    them. *)

From Stdlib Require Import QArith Qcanon.
From stdpp Require Import numbers pretty list strings gmap fin_maps.

Local Open Scope Z_scope.

(** ** Cells

    A cell of a frame is a JSON scalar or a parsed date.  [Null] stands for
    every missing value of pandas ([None], [NaN], [NaT]): [isna] is true of
    exactly these and the hash tables behind [drop_duplicates] and [merge]
    put them all in one class.  A number is kept by its value, so that [1]
    and [1.0] are the same cell, as they are for Python's [==]; the rounding
    of binary floating point is not modelled.  [Timestamp] carries
    nanoseconds since the epoch. *)

Inductive cell : Type :=
  | Null
  | Str (s : string)
  | Num (q : Qc)
  | Timestamp (ns : Z).

Global Instance cell_eq_dec : EqDecision cell.
Proof. solve_decision. Defined.

Global Instance cell_inhabited : Inhabited cell := populate Null.

Definition isna (c : cell) : bool :=
  match c with Null => true | _ => false end.

(** An integer as a cell, and Python's [int(x)] on a number: truncation
    toward zero. *)
Definition Int (z : Z) : cell := Num (Qc_of_Z z).

Definition Qc_trunc (q : Qc) : Z := Z.quot (Qnum q) (Zpos (Qden q)).

(** ** Rows and frames

    A row is a dictionary from column labels to cells; a label that is
    absent reads as [Null], which is what the [DataFrame] constructor puts
    in a record that lacks a key. *)

Abbreviation row := (gmap string cell).

Definition get (r : row) (c : string) : cell := default Null (r !! c).

Record DataFrame : Type := mkDF {
  columns : list string;
  rows : list row
}.

Global Instance DataFrame_eq_dec : EqDecision DataFrame.
Proof. solve_decision. Defined.

Definition len (df : DataFrame) : nat := length (rows df).

(** A column taken out of a frame is the list of its cells. *)
Abbreviation Series := (list cell).

(** ** Exceptions and results

    [DateParseError] is the [ValueError] that [pd.to_datetime] raises on a
    value it cannot read, [IntCastError] the [ValueError] or [TypeError] of
    [astype(int)], both with the offending value, and [OverflowError] what
    the same cast raises on an integer it cannot hold; [LengthMismatch] is
    the [ValueError] of an item assignment whose values have another
    length than the frame.  [ReferenceError] stands for a reference to no
    object, which no variable of the script ever holds. *)

Inductive exn : Type :=
  | KeyError (label : string)
  | DateParseError (v : cell)
  | IntCastError (v : cell)
  | OverflowError
  | LengthMismatch
  | MergeError
  | FileNotFoundError (path : string)
  | JSONDecodeError (path : string)
  | OSError (path : string)
  | ReferenceError.

Global Instance exn_eq_dec : EqDecision exn.
Proof. solve_decision. Defined.

Inductive result (A : Type) : Type :=
  | Ok (a : A)
  | Raise (e : exn).
Arguments Ok {A} a.
Arguments Raise {A} e.

Global Instance result_eq_dec `{EqDecision A} : EqDecision (result A).
Proof. solve_decision. Defined.

Global Instance result_ret : MRet result := λ A a, Ok a.
Global Instance result_bind : MBind result := λ A B f m,
  match m with Ok a => f a | Raise e => Raise e end.
Global Instance result_fmap : FMap result := λ A B f m,
  match m with Ok a => Ok (f a) | Raise e => Raise e end.

(** [traverse f l] applies [f] from left to right and stops at the first
    element that raises. *)
Fixpoint traverse {A B} (f : A → result B) (l : list A) : result (list B) :=
  match l with
  | [] => Ok []
  | x :: l' =>
      match f x with
      | Ok y => match traverse f l' with
                | Ok ys => Ok (y :: ys)
                | Raise e => Raise e
                end
      | Raise e => Raise e
      end
  end.

(** ** Pure frame operations *)

(** [unique l]: the distinct elements of [l] in the order of their first
    occurrence ([keep='first'], the default of [drop_duplicates]). *)
Fixpoint unique_from {A} `{EqDecision A} (seen l : list A) : list A :=
  match l with
  | [] => []
  | x :: l' =>
      if decide (x ∈ seen) then unique_from seen l'
      else x :: unique_from (x :: seen) l'
  end.

Definition unique {A} `{EqDecision A} (l : list A) : list A := unique_from [] l.

(** [df[c]] *)
Definition getitem (c : string) (df : DataFrame) : result Series :=
  if decide (c ∈ columns df) then Ok ((λ r, get r c) <$> rows df)
  else Raise (KeyError c).

(** [df[c] = values]: replaces the column, or appends it when the label is
    new; pandas refuses values of another length than the frame. *)
Definition setitem (c : string) (values : Series) (df : DataFrame)
  : result DataFrame :=
  if decide (length values = len df) then
    Ok (mkDF (if decide (c ∈ columns df) then columns df else columns df ++ [c])
             (zip_with (λ r v, <[c := v]> r) (rows df) values))
  else Raise LengthMismatch.

(** [df[[c1, ..., cn]]]: a new frame with these columns only. *)
Definition project (cols : list string) (r : row) : row :=
  list_to_map ((λ c, (c, get r c)) <$> cols).

Definition getitems (cols : list string) (df : DataFrame) : result DataFrame :=
  match list_find (λ c, c ∉ columns df) cols with
  | Some (_, c) => Raise (KeyError c)
  | None => Ok (mkDF cols (project cols <$> rows df))
  end.

(** [df.drop_duplicates()]: full-row equality, first occurrence kept. *)
Definition drop_duplicates (df : DataFrame) : DataFrame :=
  mkDF (columns df) (unique (rows df)).

(** [s.fillna(value)] *)
Definition fillna (value : cell) (s : Series) : Series :=
  (λ c, if isna c then value else c) <$> s.

(** [range(lo, hi)] as a column of integers. *)
Definition range (lo hi : Z) : Series := Int <$> seqZ lo (hi - lo).

(** [left.merge(right, on=keys)]: the default inner join.  Every left row,
    in the order of the left frame, is paired with every right row that
    agrees with it on all the key columns at once.  pandas gives a missing
    key its own class, so a null key matches a null key (unlike SQL).  A
    column that is in both frames and is no key is renamed with the
    suffixes [_x] and [_y]; the join is refused when the labels of the
    result collide (pandas refuses a collision within one side; a row
    here has one cell per label, so a collision across the two sides is
    refused as well). *)
Definition keys_match (keys : list string) (l r : row) : bool :=
  bool_decide (Forall (λ k, get l k = get r k) keys).

Definition overlap (left right : DataFrame) (keys : list string) (c : string)
  : bool :=
  bool_decide ((c ∉ keys) ∧ (c ∈ columns left) ∧ (c ∈ columns right)).

Definition suffixed (left right : DataFrame) (keys : list string)
  (suffix c : string) : string :=
  if overlap left right keys c then c +:+ suffix else c.

Definition merge_row (left right : DataFrame) (keys : list string) (l r : row)
  : row :=
  list_to_map
    (((λ c, (suffixed left right keys "_x" c, get l c)) <$> columns left) ++
     ((λ c, (suffixed left right keys "_y" c, get r c)) <$>
        filter (λ c, c ∉ keys) (columns right))).

Definition merge (left right : DataFrame) (keys : list string)
  : result DataFrame :=
  match list_find (λ k, k ∉ columns left ∨ k ∉ columns right) keys with
  | Some (_, k) => Raise (KeyError k)
  | None =>
      let labels :=
        (suffixed left right keys "_x" <$> columns left) ++
        (suffixed left right keys "_y" <$>
           filter (λ c, c ∉ keys) (columns right)) in
      if decide (NoDup labels) then
        Ok (mkDF labels
              (l ← rows left;
               r ← filter (λ r, keys_match keys l r) (rows right);
               [merge_row left right keys l r]))
      else Raise MergeError
  end.

(** ** The conversions of the silver stage

    pandas' date parser, Python's [int] on a string and the cast to 64-bit
    integers are library code; what they answer is taken as a parameter.

    [pd.to_datetime] reads a column as a whole: it infers one format for
    it, so that a string can be a date by itself and still be refused, or
    read differently, next to the others.  The parsers are therefore given
    the column together with the value.  [parse_datetime col s] is what
    the string [s] is read as in the column [col]: [None] where pandas
    raises, [Some None] where it reads a missing date (as it does for the
    empty string), [Some (Some t)] for [t] nanoseconds since the epoch.
    [epoch_datetime col q] does the same for a number.

    [parse_int s] is Python's [int(s)], [None] where it raises.
    [overflow_int col z] is what the cast to [int64] makes of an integer
    [z] outside the 64-bit range in the column [col]: numpy wraps a float
    that is too large and refuses a Python integer that is, so the answer
    depends on how the column is stored; [None] is the refusal. *)
Class Parsers : Type := {
  parse_datetime : Series → string → option (option Z);
  epoch_datetime : Series → Qc → option Z;
  parse_int : string → option Z;
  overflow_int : Series → Z → option Z
}.

(** The range of [int64], and the integer of that range that is congruent
    to [z] modulo [2^64]. *)
Definition int64 (z : Z) : Prop := - 2 ^ 63 ≤ z < 2 ^ 63.

Definition wrap64 (z : Z) : Z := (z + 2 ^ 63) `mod` 2 ^ 64 - 2 ^ 63.

Section conversions.
Context `{Parsers}.

(** [pd.to_datetime] on one value of the column [col]: a missing value
    becomes [NaT], a date stays as it is, a string or a number is parsed
    (errors='raise'). *)
Definition to_datetime_cell (col : Series) (c : cell) : result cell :=
  match c with
  | Null => Ok Null
  | Timestamp t => Ok (Timestamp t)
  | Str s =>
      match parse_datetime col s with
      | Some (Some t) => Ok (Timestamp t)
      | Some None => Ok Null
      | None => Raise (DateParseError c)
      end
  | Num q =>
      match epoch_datetime col q with
      | Some t => Ok (Timestamp t)
      | None => Raise (DateParseError c)
      end
  end.

Definition to_datetime (s : Series) : result Series :=
  traverse (to_datetime_cell s) s.

(** Python's [int(x)] on one value: a number is truncated toward zero, a
    string goes through [int(s)], a date gives its nanoseconds, a missing
    value cannot be converted. *)
Definition int_of_cell (c : cell) : result Z :=
  match c with
  | Num q => Ok (Qc_trunc q)
  | Str s =>
      match parse_int s with
      | Some z => Ok z
      | None => Raise (IntCastError c)
      end
  | Timestamp t => Ok t
  | Null => Raise (IntCastError c)
  end.

(** [.astype(int)] on one value of the column [col]: the integer of the
    value when it fits in 64 bits, and what the cast makes of it
    otherwise. *)
Definition astype_int_cell (col : Series) (c : cell) : result cell :=
  z ← int_of_cell c;
  if decide (int64 z) then Ok (Int z)
  else match overflow_int col z with
       | Some z' => Ok (Int (wrap64 z'))
       | None => Raise OverflowError
       end.

Definition astype_int (s : Series) : result Series :=
  traverse (astype_int_cell s) s.
End conversions.

(** ** The world the script runs in

    Frames are Python objects: a variable holds a reference, and an
    item assignment changes the object for everyone who holds it.  The
    heap maps references to frames.  The file system keeps, for every
    path, what was last written there; paths are relative to [ROOT_DIR].
    [stdout] is the list of the lines printed so far. *)

Abbreviation loc := positive.

Record config : Type := mkConfig {
  raw_dir : string;
  processed_dir : string;
  final_dir : string;
  sales_file : string;
  forecast_file : string
}.

Inductive file : Type :=
  | ConfigJson (c : config)
  | RecordsJson (records : list (list (string * cell)))
  | Csv (df : DataFrame).

Record world : Type := mkWorld {
  heap : gmap loc DataFrame;
  fs : gmap string file;
  dirs : gset string;
  stdout : list string
}.

Definition set_heap (f : gmap loc DataFrame → gmap loc DataFrame) (w : world)
  : world := mkWorld (f (heap w)) (fs w) (dirs w) (stdout w).
Definition set_fs (f : gmap string file → gmap string file) (w : world)
  : world := mkWorld (heap w) (f (fs w)) (dirs w) (stdout w).
Definition set_dirs (f : gset string → gset string) (w : world)
  : world := mkWorld (heap w) (fs w) (f (dirs w)) (stdout w).
Definition set_stdout (f : list string → list string) (w : world)
  : world := mkWorld (heap w) (fs w) (dirs w) (f (stdout w)).

(** A computation runs on a world and either returns or raises; what it
    did to the world before raising stays done. *)
Definition M (A : Type) : Type := world → result A * world.

Global Instance M_ret : MRet M := λ A a w, (Ok a, w).
Global Instance M_bind : MBind M := λ A B f m w,
  match m w with
  | (Ok a, w') => f a w'
  | (Raise e, w') => (Raise e, w')
  end.

Notation "m ;; k" := (mbind (λ _ : unit, k) m)
  (at level 100, k at level 200, right associativity).

Definition lift {A} (r : result A) : M A := λ w, (r, w).

Definition new (df : DataFrame) : M loc := λ w,
  let l := fresh (dom (heap w)) in (Ok l, set_heap <[l := df]> w).

Definition deref (l : loc) : M DataFrame := λ w,
  match heap w !! l with
  | Some df => (Ok df, w)
  | None => (Raise ReferenceError, w)
  end.

Definition store (l : loc) (df : DataFrame) : M unit := λ w,
  (Ok (), set_heap <[l := df]> w).

Definition print (line : string) : M unit := λ w,
  (Ok (), set_stdout (λ out, out ++ [line]) w).

(** [df[c]] and [df[c] = values] on a frame held by reference. *)
Definition column (l : loc) (c : string) : M Series :=
  df ← deref l; lift (getitem c df).

Definition assign (l : loc) (c : string) (values : Series) : M unit :=
  df ← deref l; df' ← lift (setitem c values df); store l df'.

Definition len_at (l : loc) : M nat := df ← deref l; mret (len df).

(** Paths.  A path is kept as the string the script builds for it, a
    directory and a file name with a separator between them; two strings
    that the operating system would resolve to one file are two paths
    here. *)
Definition nl : string := String (Ascii.ascii_of_nat 10) "".

Definition path_join (dir name : string) : string := dir +:+ "/" +:+ name.

(** [Path(p).mkdir(parents=True, exist_ok=True)], on a disk that lets the
    directory be made. *)
Definition mkdir (p : string) : M unit := λ w,
  (Ok (), set_dirs (λ d, {[p]} ∪ d) w).

(** [df.to_csv(dir / name, index=False)] writes the frame, and fails when
    the directory does not exist: the failure that [setup_environment] is
    there to prevent.  A disk that refuses the write for another reason
    (no space, no permission, a directory at the path) is outside the
    model. *)
Definition to_csv (df : DataFrame) (dir name : string) : M unit := λ w,
  if decide (dir ∈ dirs w) then
    (Ok (), set_fs <[path_join dir name := Csv df]> w)
  else (Raise (OSError (path_join dir name)), w).

Definition to_csv_at (l : loc) (dir name : string) : M unit :=
  df ← deref l; to_csv df dir name.

(** [pd.DataFrame(json.load(f))] on an array of flat records: the columns
    are the keys in the order they are first met, a repeated key keeps its
    last value, and a record without a key holds a missing value there.
    Numbers are kept as they are written in the file: that pandas stores a
    column of integers with a missing value as binary floating point, and
    so rounds an integer beyond 2^53, is not modelled. *)
Definition DataFrame_of_records (records : list (list (string * cell)))
  : DataFrame :=
  let cols := unique (records ≫= fmap fst) in
  mkDF cols ((λ kvs, project cols (list_to_map (reverse kvs))) <$> records).

Definition read_json_records (dir name : string) : M DataFrame := λ w,
  match fs w !! path_join dir name with
  | Some (RecordsJson records) => (Ok (DataFrame_of_records records), w)
  | Some _ => (Raise (JSONDecodeError (path_join dir name)), w)
  | None => (Raise (FileNotFoundError (path_join dir name)), w)
  end.

(** ** The script *)

Definition load_config : M config := λ w,
  match fs w !! "config.json" with
  | Some (ConfigJson c) => (Ok c, w)
  | Some _ => (Raise (JSONDecodeError "config.json"), w)
  | None => (Raise (FileNotFoundError "config.json"), w)
  end.

Definition setup_environment (config : config) : M unit :=
  mkdir (raw_dir config);;
  mkdir (processed_dir config);;
  mkdir (final_dir config).

(** STAGE: BRONZE *)
Definition extract_from_raw (config : config) : M (loc * loc) :=
  let raw_path := raw_dir config in
  sales ← read_json_records raw_path (sales_file config);
  df_sales ← new sales;
  forecast ← read_json_records raw_path (forecast_file config);
  df_forecast ← new forecast;
  print (nl +:+ "[BRONZE VALIDATION]");;
  n ← len_at df_sales;
  print ("-> Raw Sales Loaded: " +:+ pretty n +:+ " rows");;
  n ← len_at df_forecast;
  print ("-> Raw Forecast Loaded: " +:+ pretty n +:+ " rows");;
  mret (df_sales, df_forecast).

Section stages.
Context `{Parsers}.

(** STAGE: SILVER.  Every assignment writes into the frame the caller
    passed, and the references returned are the ones received. *)
Definition transform_to_silver (df_sales df_forecast : loc) (config : config)
  : M (loc * loc) :=
  let processed_out := processed_dir config in
  initial_count ← len_at df_sales;
  s ← column df_sales "OrderDate";
  s ← lift (to_datetime s);
  assign df_sales "OrderDate" s;;
  s ← column df_sales "Name";
  assign df_sales "Name" (fillna (Str "Unknown") s);;
  s ← column df_sales "Education";
  assign df_sales "Education" (fillna (Str "Not Provided") s);;
  s ← column df_sales "Occupation";
  assign df_sales "Occupation" (fillna (Str "Not Provided") s);;
  s ← column df_forecast "Year";
  s ← lift (astype_int s);
  assign df_forecast "Year" s;;
  to_csv_at df_sales processed_out "cleaned_sales.csv";;
  to_csv_at df_forecast processed_out "cleaned_forecast.csv";;
  print (nl +:+ "[SILVER VALIDATION]");;
  n ← len_at df_sales;
  print ("-> Cleaned Sales: " +:+ pretty n +:+ " rows (Dropped: " +:+
         pretty (Z.of_nat initial_count - Z.of_nat n) +:+ ")");;
  mret (df_sales, df_forecast).
End stages.

(** STAGE: GOLD.  The tables of the star schema are computed from the
    cleaned sales frame alone; [build_gold] is that computation, in the
    order of the script. *)
Definition product_columns : list string :=
  ["ProductKey"; "Product Name"; "Brand"; "Color"; "Subcategory"; "Category"].
Definition customer_columns : list string :=
  ["CustomerKey"; "Customer Code"; "Name"; "Education"; "Occupation"].
Definition geo_columns : list string :=
  ["City"; "State"; "CountryRegion"; "Continent"].
Definition fact_columns : list string :=
  ["ProductKey"; "CustomerKey"; "GeoKey"; "OrderDate"; "Quantity"; "Net Price"].

Record gold_tables : Type := mkGold {
  dim_product : DataFrame;
  dim_customer : DataFrame;
  dim_geo : DataFrame;
  fact_sales : DataFrame
}.

Definition build_gold (df_sales : DataFrame) : result gold_tables :=
  dim_product ← drop_duplicates <$> getitems product_columns df_sales;
  dim_customer ← drop_duplicates <$> getitems customer_columns df_sales;
  dim_geo ← drop_duplicates <$> getitems geo_columns df_sales;
  dim_geo ← setitem "GeoKey" (range 1 (Z.of_nat (len dim_geo) + 1)) dim_geo;
  fact_sales ← merge df_sales dim_geo geo_columns;
  fact_sales ← getitems fact_columns fact_sales;
  mret (mkGold dim_product dim_customer dim_geo fact_sales).

(** The closing check of the stage: one printed line, nothing raised. *)
Definition integrity_check (input_count : nat) (fact_sales : DataFrame)
  : M unit :=
  if decide (len fact_sales ≠ input_count) then
    print ("!! WARNING: " +:+
           pretty (Z.of_nat input_count - Z.of_nat (len fact_sales)) +:+
           " rows lost during modeling merge!")
  else
    print "-> Data Integrity Check: Passed (Sales row count maintained)".

Definition model_to_gold (df_sales df_forecast : loc) (config : config)
  : M unit :=
  let final_out := final_dir config in
  input_count ← len_at df_sales;
  sales ← deref df_sales;
  g ← lift (build_gold sales);
  to_csv (fact_sales g) final_out "fact_sales.csv";;
  to_csv_at df_forecast final_out "fact_forecast.csv";;
  to_csv (dim_product g) final_out "dim_product.csv";;
  to_csv (dim_customer g) final_out "dim_customer.csv";;
  to_csv (dim_geo g) final_out "dim_geo.csv";;
  print (nl +:+ "[GOLD VALIDATION]");;
  print ("-> Dim_Product: " +:+ pretty (len (dim_product g)) +:+
         " unique items");;
  print ("-> Dim_Customer: " +:+ pretty (len (dim_customer g)) +:+
         " unique customers");;
  print ("-> Fact_Sales: " +:+ pretty (len (fact_sales g)) +:+ " rows");;
  integrity_check input_count (fact_sales g).

Section pipeline.
Context `{Parsers}.

Definition run_etl : M unit :=
  print "Starting ETL Pipeline...";;
  config ← load_config;
  setup_environment config;;
  raw ← extract_from_raw config;
  silver ← transform_to_silver raw.1 raw.2 config;
  model_to_gold silver.1 silver.2 config;;
  print (nl +:+ "==============================");;
  print "ETL SUCCESSFUL";;
  print "==============================".
End pipeline.

(** ** Vocabulary of the properties *)

(** [first_at l i x]: position [i] is where [x] first appears in [l]. *)
Definition first_at {A} (l : list A) (i : nat) (x : A) : Prop :=
  l !! i = Some x ∧ ∀ j, (j < i)%nat → l !! j ≠ Some x.

(** What the stage expects of the cleaned sales frame: distinct column
    labels (as every frame built from JSON records has), the columns the
    script reads, and no column named like the surrogate key. *)
Definition required_columns : list string :=
  product_columns ++ customer_columns ++ geo_columns ++
  ["OrderDate"; "Quantity"; "Net Price"].

Definition sales_schema (df : DataFrame) : Prop :=
  NoDup (columns df) ∧
  Forall (λ c, c ∈ columns df) required_columns ∧
  "GeoKey" ∉ columns df.

(** The distinct geography tuples of a frame and their numbering. *)
Definition geo_tuples (df : DataFrame) : list row :=
  unique (project geo_columns <$> rows df).

Definition keyed (tuples : list row) : list row :=
  zip_with (λ r v, <["GeoKey" := v]> r) tuples
    (range 1 (Z.of_nat (length tuples) + 1)).

Definition dim_geo_of (df : DataFrame) : DataFrame :=
  mkDF (geo_columns ++ ["GeoKey"]) (keyed (geo_tuples df)).

(** A row of the fact table, from a sales row and the row of the geography
    dimension it is joined with. *)
Definition fact_row (s d : row) : row :=
  <["ProductKey" := get s "ProductKey"]>
  (<["CustomerKey" := get s "CustomerKey"]>
  (<["GeoKey" := get d "GeoKey"]>
  (<["OrderDate" := get s "OrderDate"]>
  (<["Quantity" := get s "Quantity"]>
  (<["Net Price" := get s "Net Price"]> ∅))))).

(** The join in the words of the specification: a sales row and a row of
    the geography dimension are paired when they are equal on the four
    geography columns at once, and the pair is projected to the six
    columns of the fact table. *)
Definition geo_equal (s d : row) : Prop :=
  get s "City" = get d "City" ∧ get s "State" = get d "State" ∧
  get s "CountryRegion" = get d "CountryRegion" ∧
  get s "Continent" = get d "Continent".

Global Instance geo_equal_dec s d : Decision (geo_equal s d).
Proof. unfold geo_equal. apply _. Defined.

Definition inner_join_on_geo (sales dim : list row) : list row :=
  s ← sales; d ← filter (geo_equal s) dim; [fact_row s d].

(** The lines the gold stage prints. *)
Definition gold_report (input_count : nat) (g : gold_tables) : list string :=
  [nl +:+ "[GOLD VALIDATION]";
   "-> Dim_Product: " +:+ pretty (len (dim_product g)) +:+ " unique items";
   "-> Dim_Customer: " +:+ pretty (len (dim_customer g)) +:+
     " unique customers";
   "-> Fact_Sales: " +:+ pretty (len (fact_sales g)) +:+ " rows";
   if decide (len (fact_sales g) = input_count)
   then "-> Data Integrity Check: Passed (Sales row count maintained)"
   else "!! WARNING: " +:+
        pretty (Z.of_nat input_count - Z.of_nat (len (fact_sales g))) +:+
        " rows lost during modeling merge!"].

Definition gold_files (dir : string) (g : gold_tables) (forecast : DataFrame)
  (files : gmap string file) : gmap string file :=
  <[path_join dir "dim_geo.csv" := Csv (dim_geo g)]>
  (<[path_join dir "dim_customer.csv" := Csv (dim_customer g)]>
  (<[path_join dir "dim_product.csv" := Csv (dim_product g)]>
  (<[path_join dir "fact_forecast.csv" := Csv forecast]>
  (<[path_join dir "fact_sales.csv" := Csv (fact_sales g)]> files)))).

(** A sales row is complete when none of its geography fields is missing. *)
Definition geo_complete (s : row) : Prop :=
  Forall (λ c, get s c ≠ Null) geo_columns.

Global Instance geo_complete_dec s : Decision (geo_complete s).
Proof. unfold geo_complete. apply _. Defined.

Global Instance sales_schema_dec df : Decision (sales_schema df).
Proof. unfold sales_schema. apply _. Defined.

(** ** Sample data *)

(** One sales record, with the customer fields and the geography left to
    the caller. *)
Definition sale (name education occupation city state : cell) (date : cell)
  : list (string * cell) :=
  [("ProductKey", Int 1); ("CustomerKey", Int 10); ("City", city);
   ("State", state); ("CountryRegion", Str "US"); ("Continent", Str "NA");
   ("OrderDate", date); ("Quantity", Int 2);
   ("Net Price", Num (Q2Qc (999 # 100))); ("Name", name);
   ("Education", education); ("Occupation", occupation);
   ("Product Name", Str "Widget"); ("Brand", Str "B"); ("Color", Str "Red");
   ("Subcategory", Str "Sub"); ("Category", Str "Cat");
   ("Customer Code", Str "C10")].

(** Three sales in two cities; the first and the last share their
    geography. *)
Definition sample_sales_records : list (list (string * cell)) :=
  [sale Null Null (Str "Eng") (Str "A") (Str "S1") (Str "2023-01-01");
   sale (Str "Ann") (Str "BSc") Null (Str "B") (Str "S2") (Str "2023-01-02");
   sale (Str "Bob") Null (Str "Eng") (Str "A") (Str "S1") Null].

Definition sample_sales : DataFrame :=
  DataFrame_of_records sample_sales_records.

(** One sale whose city is missing. *)
Definition sample_sales_null_city : DataFrame :=
  DataFrame_of_records
    [sale (Str "Ann") (Str "BSc") (Str "Eng") Null (Str "S1") (Str "2023-01-01")].

Definition sample_forecast_records : list (list (string * cell)) :=
  [[("ProductKey", Int 1); ("Year", Int 2024); ("Forecast", Int 120)];
   [("ProductKey", Int 1); ("Year", Str "2025"); ("Forecast", Null)]].

Definition sample_forecast : DataFrame :=
  DataFrame_of_records sample_forecast_records.

(** A forecast whose year has a fractional part. *)
Definition sample_forecast_fraction : DataFrame :=
  DataFrame_of_records
    [[("ProductKey", Int 1); ("Year", Num (Q2Qc (4047 # 2)))]].

(** ** The silver stage, frame by frame

    Each cleaning line of the script reads a column, converts it and writes
    it back: [df[c] = f(df[c])].  The pure functions below are what those
    lines do to the frame; the stage itself does it to the caller's
    object. *)

Definition fill (value c : cell) : cell := if isna c then value else c.

Definition convert_column (c : string) (f : Series → result Series)
  (df : DataFrame) : result DataFrame :=
  s ← getitem c df; s' ← f s; setitem c s' df.

Definition fill_column (c : string) (value : cell) (df : DataFrame)
  : result DataFrame :=
  s ← getitem c df; setitem c (fillna value s) df.

Section cleaning.
Context `{Parsers}.

Definition clean_sales (df : DataFrame) : result DataFrame :=
  df ← convert_column "OrderDate" to_datetime df;
  df ← fill_column "Name" (Str "Unknown") df;
  df ← fill_column "Education" (Str "Not Provided") df;
  fill_column "Occupation" (Str "Not Provided") df.

Definition clean_forecast (df : DataFrame) : result DataFrame :=
  convert_column "Year" astype_int df.

(** A cleaned sales row, given the parsed date. *)
Definition clean_sales_row (r : row) (date : cell) : row :=
  <["Occupation" := fill (Str "Not Provided") (get r "Occupation")]>
  (<["Education" := fill (Str "Not Provided") (get r "Education")]>
  (<["Name" := fill (Str "Unknown") (get r "Name")]>
  (<["OrderDate" := date]> r))).

(** An order date that [pd.to_datetime] rejects in the column [col]: a
    string or a number that the parser cannot read there. *)
Definition unparseable (col : Series) (c : cell) : Prop :=
  match c with
  | Str s => parse_datetime col s = None
  | Num q => epoch_datetime col q = None
  | Null | Timestamp _ => False
  end.

(** A year that is not representable as an integer: missing, a string that
    is no integer literal, or a number with a fractional part. *)
Definition not_an_integer (c : cell) : Prop :=
  match c with
  | Null => True
  | Str s => parse_int s = None
  | Num q => Qc_of_Z (Qc_trunc q) ≠ q
  | Timestamp _ => False
  end.

(** A year that [astype(int)] rejects whatever the column: a missing value
    or a string that is no integer literal. *)
Definition uncastable (c : cell) : Prop :=
  match c with
  | Null => True
  | Str s => parse_int s = None
  | Num _ | Timestamp _ => False
  end.

Global Instance unparseable_dec col c : Decision (unparseable col c).
Proof. destruct c; simpl; apply _. Defined.

Global Instance not_an_integer_dec c : Decision (not_an_integer c).
Proof. destruct c; simpl; apply _. Defined.

Global Instance uncastable_dec c : Decision (uncastable c).
Proof. destruct c; simpl; apply _. Defined.
End cleaning.


Definition silver_columns : list string :=
  ["OrderDate"; "Name"; "Education"; "Occupation"].

(** The lines the silver stage prints. *)
Definition silver_report (initial_count n : nat) : list string :=
  [nl +:+ "[SILVER VALIDATION]";
   "-> Cleaned Sales: " +:+ pretty n +:+ " rows (Dropped: " +:+
   pretty (Z.of_nat initial_count - Z.of_nat n) +:+ ")"].

Definition silver_files (dir : string) (sales forecast : DataFrame)
  (files : gmap string file) : gmap string file :=
  <[path_join dir "cleaned_forecast.csv" := Csv forecast]>
  (<[path_join dir "cleaned_sales.csv" := Csv sales]> files).

(** A parser for the sample data: dates of the form 2023-01-DD, as
    nanoseconds since the epoch, the empty string as a missing date, and
    years of four digits.  It knows one date format, so that it reads a
    string the same in every column. *)
Definition sample_parse_datetime (s : string) : option (option Z) :=
  if decide (s = "2023-01-01") then Some (Some 1672531200000000000)
  else if decide (s = "2023-01-02") then Some (Some 1672617600000000000)
  else if decide (s = "") then Some None
  else None.

Definition sample_parse_int (s : string) : option Z :=
  if decide (s = "2024") then Some 2024
  else if decide (s = "2025") then Some 2025
  else None.

Definition sample_parsers : Parsers := {|
  parse_datetime := λ _, sample_parse_datetime;
  epoch_datetime := λ _ q, Some (Qc_trunc q);
  parse_int := sample_parse_int;
  overflow_int := λ _ _, None
|}.

Definition sample_config : config :=
  mkConfig "data/raw" "data/processed" "data/final" "sales.json" "forecast.json".

(** A world after extraction: the two raw frames and the directories. *)
Definition sample_world (sales forecast : DataFrame) : world :=
  mkWorld {[ 1%positive := sales; 2%positive := forecast ]} ∅
          {[ "data/raw"; "data/processed"; "data/final" ]} [].

(** The sample world after the silver stage has run on it. *)
Definition sample_cleaned_world : world :=
  (@transform_to_silver sample_parsers 1%positive 2%positive sample_config
     (sample_world sample_sales sample_forecast)).2.

(** Sales with a date that no parser reads. *)
Definition sample_sales_bad_date : DataFrame :=
  DataFrame_of_records
    [sale (Str "Ann") (Str "BSc") (Str "Eng") (Str "A") (Str "S1")
          (Str "yesterday")].

(** The sample world after the silver stage has run on the forecast with a
    fractional year. *)
Definition sample_cleaned_fraction_world : world :=
  (@transform_to_silver sample_parsers 1%positive 2%positive sample_config
     (sample_world sample_sales sample_forecast_fraction)).2.

(** The star schema of the sample sales. *)
Definition sample_gold : gold_tables :=
  match build_gold sample_sales with
  | Ok g => g
  | Raise _ => mkGold (mkDF [] []) (mkDF [] []) (mkDF [] []) (mkDF [] [])
  end.

(** The lines of a complete run, in the order they are printed. *)
Definition bronze_report (n_sales n_forecast : nat) : list string :=
  [nl +:+ "[BRONZE VALIDATION]";
   "-> Raw Sales Loaded: " +:+ pretty n_sales +:+ " rows";
   "-> Raw Forecast Loaded: " +:+ pretty n_forecast +:+ " rows"].

Definition success_banner : list string :=
  [nl +:+ "=============================="; "ETL SUCCESSFUL"; "=============================="].

(** A world before the run: the configuration and the two raw files, no
    directory, no frame. *)
Definition sample_initial_world : world :=
  mkWorld ∅
    {[ "config.json" := ConfigJson sample_config;
       "data/raw/sales.json" := RecordsJson sample_sales_records;
       "data/raw/forecast.json" := RecordsJson sample_forecast_records ]}
    ∅ [].

(** The scenarios of the specification: one sale with a missing name and
    education; the same sale twice; two sales whose cities differ by a
    trailing blank. *)
Definition scenario_one : DataFrame :=
  DataFrame_of_records
    [sale Null Null (Str "Eng") (Str "A") (Str "S1") (Str "2023-01-01")].

Definition scenario_shared_geography : DataFrame :=
  DataFrame_of_records
    [sale (Str "Ann") (Str "BSc") (Str "Eng") (Str "A") (Str "S1") Null;
     sale (Str "Bob") (Str "MSc") (Str "Eng") (Str "A") (Str "S1") Null].

Definition scenario_trailing_blank : DataFrame :=
  DataFrame_of_records
    [sale (Str "Ann") (Str "BSc") (Str "Eng") (Str "A") (Str "S1") Null;
     sale (Str "Bob") (Str "MSc") (Str "Eng") (Str "A ") (Str "S1") Null].

(** The GeoKey column of a table, when the table was built. *)
Definition geo_keys_of (table : gold_tables → DataFrame) (df : DataFrame)
  : result Series :=
  g ← build_gold df; getitem "GeoKey" (table g).

(** ** Vocabulary of the further properties *)

(** A frame is rectangular when its labels are distinct and every row has
    a cell for exactly the labels of the frame. *)
Definition rectangular (df : DataFrame) : Prop :=
  NoDup (columns df) ∧
  Forall (λ r : row, dom r = list_to_set (columns df)) (rows df).

Global Instance rectangular_dec df : Decision (rectangular df).
Proof. unfold rectangular. apply _. Defined.

(** A forecast whose year is missing. *)
Definition sample_forecast_null_year : DataFrame :=
  DataFrame_of_records
    [[("ProductKey", Int 1); ("Year", Null)]].

(** A sale that already carries a GeoKey. *)
Definition sample_sales_with_key : DataFrame :=
  DataFrame_of_records
    [sale (Str "Ann") (Str "BSc") (Str "Eng") (Str "A") (Str "S1") Null ++
     [("GeoKey", Int 7)]].

(** The cleaned sample tables. *)
Definition sample_silver_sales : DataFrame :=
  match @clean_sales sample_parsers sample_sales with
  | Ok df => df
  | Raise _ => mkDF [] []
  end.

Definition sample_silver_forecast : DataFrame :=
  match @clean_forecast sample_parsers sample_forecast with
  | Ok df => df
  | Raise _ => mkDF [] []
  end.

(** A world whose forecast file is missing, one whose sales file has a
    date that cannot be read, and one whose sales file is an empty array. *)
Definition sample_world_no_forecast : world :=
  mkWorld ∅
    {[ "config.json" := ConfigJson sample_config;
       "data/raw/sales.json" := RecordsJson sample_sales_records ]}
    ∅ [].

Definition sample_world_bad_date : world :=
  mkWorld ∅
    {[ "config.json" := ConfigJson sample_config;
       "data/raw/sales.json" :=
         RecordsJson [sale (Str "Ann") (Str "BSc") (Str "Eng") (Str "A")
                           (Str "S1") (Str "yesterday")];
       "data/raw/forecast.json" := RecordsJson sample_forecast_records ]}
    ∅ [].

Definition sample_world_empty_sales : world :=
  mkWorld ∅
    {[ "config.json" := ConfigJson sample_config;
       "data/raw/sales.json" := RecordsJson [];
       "data/raw/forecast.json" := RecordsJson sample_forecast_records ]}
    ∅ [].

(** * Properties *)

(** ** Deduplication *)

Section unique_facts.
Context {A : Type} `{EqDecision A}.
Implicit Types (l seen : list A) (x : A).

Lemma elem_of_unique_from seen l x :
  x ∈ unique_from seen l ↔ x ∈ l ∧ x ∉ seen.
Proof.
  revert seen. induction l as [|y l IH]; intros seen; simpl.
  - set_solver.
  - destruct (decide (y ∈ seen)) as [Hy|Hy].
    + rewrite IH. set_solver.
    + rewrite elem_of_cons, IH. destruct (decide (x = y)); set_solver.
Qed.

Lemma NoDup_unique_from seen l : NoDup (unique_from seen l).
Proof.
  revert seen. induction l as [|y l IH]; intros seen; simpl.
  - constructor.
  - destruct (decide (y ∈ seen)); [apply IH|].
    constructor; [|apply IH].
    rewrite elem_of_unique_from. set_solver.
Qed.

Lemma length_unique_from seen l :
  (length (unique_from seen l) ≤ length l)%nat.
Proof.
  revert seen. induction l as [|y l IH]; intros seen; simpl; [lia|].
  pose proof (IH seen). pose proof (IH (y :: seen)).
  destruct (decide (y ∈ seen)); simpl; lia.
Qed.

(** Reading the list to its end: a new element goes last, a known one
    is skipped. *)
Lemma unique_from_snoc seen l x :
  unique_from seen (l ++ [x]) =
  unique_from seen l ++ (if decide (x ∈ seen ∨ x ∈ l) then [] else [x]).
Proof.
  revert seen. induction l as [|y l IH]; intros seen; simpl.
  - destruct (decide (x ∈ seen)), (decide (x ∈ seen ∨ x ∈ [])); set_solver.
  - destruct (decide (y ∈ seen)) as [Hy|Hy]; rewrite IH; simpl.
    + destruct (decide (x ∈ seen ∨ x ∈ l)), (decide (x ∈ seen ∨ x ∈ y :: l));
        try done; set_solver.
    + destruct (decide (x ∈ y :: seen ∨ x ∈ l)),
        (decide (x ∈ seen ∨ x ∈ y :: l)); try done; set_solver.
Qed.

Lemma elem_of_unique l x : x ∈ unique l ↔ x ∈ l.
Proof. unfold unique. rewrite elem_of_unique_from. set_solver. Qed.

Lemma NoDup_unique l : NoDup (unique l).
Proof. apply NoDup_unique_from. Qed.

Lemma length_unique l : (length (unique l) ≤ length l)%nat.
Proof. apply length_unique_from. Qed.

Lemma unique_snoc l x :
  unique (l ++ [x]) = unique l ++ (if decide (x ∈ l) then [] else [x]).
Proof.
  unfold unique. rewrite unique_from_snoc.
  destruct (decide (x ∈ [] ∨ x ∈ l)), (decide (x ∈ l)); try done; set_solver.
Qed.

Lemma first_at_app_l l1 l2 i x : first_at l1 i x → first_at (l1 ++ l2) i x.
Proof.
  intros [Hi Hlt]. pose proof (lookup_lt_Some _ _ _ Hi) as Hlen. split.
  - by rewrite lookup_app_l.
  - intros j Hj. rewrite lookup_app_l by lia. by apply Hlt.
Qed.

Lemma first_at_snoc_new l x : x ∉ l → first_at (l ++ [x]) (length l) x.
Proof.
  intros Hx. split.
  - by rewrite list_lookup_middle.
  - intros j Hj. rewrite lookup_app_l by lia.
    intros Hl. apply Hx. by eapply list_elem_of_lookup_2.
Qed.

(** The distinct elements come in the order of their first occurrence. *)
Lemma unique_first_at l i x :
  unique l !! i = Some x → ∃ p, first_at l p x.
Proof.
  revert i. induction l as [|y l IH] using rev_ind; intros i; [done|].
  rewrite unique_snoc. destruct (decide (y ∈ l)) as [Hy|Hy].
  - rewrite app_nil_r. intros Hi. destruct (IH _ Hi) as [p Hp].
    exists p. by apply first_at_app_l.
  - intros Hi. apply lookup_app_Some in Hi as [Hi|[_ Hi]].
    + destruct (IH _ Hi) as [p Hp]. exists p. by apply first_at_app_l.
    + apply list_lookup_singleton_Some in Hi as [_ <-].
      exists (length l). by apply first_at_snoc_new.
Qed.

Lemma first_at_app_inv l1 l2 p x :
  x ∈ l1 → first_at (l1 ++ l2) p x → first_at l1 p x.
Proof.
  intros [p' Hp']%list_elem_of_lookup [Hp Hlt].
  pose proof (lookup_lt_Some _ _ _ Hp') as Hlen.
  assert (Hpl : (p < length l1)%nat).
  { destruct (decide (p < length l1)%nat) as [|Hge]; [done|].
    exfalso. apply (Hlt p'); [lia|]. by rewrite lookup_app_l. }
  split.
  - by rewrite lookup_app_l in Hp.
  - intros j Hj. specialize (Hlt j Hj). by rewrite lookup_app_l in Hlt by lia.
Qed.

Lemma first_at_lt_length l p x : first_at l p x → (p < length l)%nat.
Proof. intros [Hp _]. by eapply lookup_lt_Some. Qed.

Lemma unique_order l i j x y p q :
  unique l !! i = Some x → unique l !! j = Some y → (i < j)%nat →
  first_at l p x → first_at l q y → (p < q)%nat.
Proof.
  revert i j p q.
  induction l as [|z l IH] using rev_ind; intros i j p q; [done|].
  rewrite unique_snoc. destruct (decide (z ∈ l)) as [Hz|Hz].
  - rewrite app_nil_r. intros Hi Hj Hij Hp Hq.
    eapply IH; eauto; apply first_at_app_inv with [z]; try done;
      apply elem_of_unique; eauto using list_elem_of_lookup_2.
  - intros Hi Hj Hij Hp Hq.
    assert (Hx : unique l !! i = Some x).
    { pose proof (lookup_lt_Some _ _ _ Hj) as Hlen.
      rewrite length_app in Hlen. simpl in Hlen.
      by rewrite lookup_app_l in Hi by lia. }
    assert (Hxl : x ∈ l)
      by (apply elem_of_unique; eauto using list_elem_of_lookup_2).
    apply first_at_app_inv in Hp; [|done].
    apply lookup_app_Some in Hj as [Hj|[_ Hj]].
    + eapply IH; eauto. apply first_at_app_inv with [z]; [|done].
      apply elem_of_unique; eauto using list_elem_of_lookup_2.
    + apply list_lookup_singleton_Some in Hj as [_ <-].
      apply first_at_lt_length in Hp.
      destruct Hq as [Hq _].
      destruct (decide (q < length l)%nat) as [Hlt|]; [|lia].
      rewrite lookup_app_l in Hq by done.
      exfalso. apply Hz. by eapply list_elem_of_lookup_2.
Qed.
End unique_facts.

(** ** Frame operations *)

Lemma lookup_project cols (r : row) c :
  project cols r !! c = if decide (c ∈ cols) then Some (get r c) else None.
Proof.
  unfold project. induction cols as [|d cols IH]; csimpl.
  - by rewrite lookup_empty.
  - destruct (decide (d = c)) as [->|Hne].
    + rewrite lookup_insert_eq. by rewrite decide_True by set_solver.
    + rewrite lookup_insert_ne by done. rewrite IH.
      destruct (decide (c ∈ cols)), (decide (c ∈ d :: cols)); set_solver.
Qed.

Lemma get_project cols (r : row) c :
  c ∈ cols → get (project cols r) c = get r c.
Proof. intros Hc. unfold get at 1. by rewrite lookup_project, decide_True. Qed.

Lemma dom_project cols (r : row) : dom (project cols r) = list_to_set cols.
Proof.
  apply set_eq. intros c. rewrite elem_of_dom, lookup_project, elem_of_list_to_set.
  destruct (decide (c ∈ cols)); split; try done; intros []; done.
Qed.

(** Two rows have the same projection exactly when they agree on every
    projected column. *)
Lemma project_eq_iff cols (r1 r2 : row) :
  project cols r1 = project cols r2 ↔ Forall (λ c, get r1 c = get r2 c) cols.
Proof.
  rewrite Forall_forall. split.
  - intros Heq c Hc.
    rewrite <-(get_project cols r1 c Hc), <-(get_project cols r2 c Hc).
    by rewrite Heq.
  - intros Hall. apply map_eq. intros c. rewrite !lookup_project.
    destruct (decide (c ∈ cols)); [|done]. by rewrite Hall.
Qed.

Lemma project_insert_ne cols (r : row) c v :
  c ∉ cols → project cols (<[c := v]> r) = project cols r.
Proof.
  intros Hc. apply project_eq_iff, Forall_forall. intros d Hd.
  unfold get. rewrite lookup_insert_ne; [done|]. intros ->. done.
Qed.

Lemma project_idemp cols (r : row) :
  project cols (project cols r) = project cols r.
Proof.
  apply project_eq_iff, Forall_forall. intros c Hc. by apply get_project.
Qed.

Lemma getitems_Ok cols df :
  Forall (λ c, c ∈ columns df) cols →
  getitems cols df = Ok (mkDF cols (project cols <$> rows df)).
Proof.
  intros Hall. unfold getitems.
  destruct (list_find _ cols) as [[i c]|] eqn:Hfind; [|done].
  apply list_find_Some in Hfind as (Hi & Hc & _).
  rewrite Forall_forall in Hall. exfalso. apply Hc, Hall.
  by eapply list_elem_of_lookup_2.
Qed.

Lemma getitems_inv cols df df' :
  getitems cols df = Ok df' →
  Forall (λ c, c ∈ columns df) cols ∧ df' = mkDF cols (project cols <$> rows df).
Proof.
  unfold getitems. destruct (list_find _ cols) as [[i c]|] eqn:Hfind; [done|].
  intros [= <-]. split; [|done].
  rewrite list_find_None in Hfind. eapply Forall_impl; [exact Hfind|].
  intros c Hc. simpl in Hc. by apply dec_stable.
Qed.

Lemma getitem_Ok c df :
  c ∈ columns df → getitem c df = Ok ((λ r, get r c) <$> rows df).
Proof. intros Hc. unfold getitem. by rewrite decide_True. Qed.

Lemma length_range lo hi : lo ≤ hi → length (range lo hi) = Z.to_nat (hi - lo).
Proof. intros _. unfold range. by rewrite length_fmap, length_seqZ. Qed.

Lemma range_lookup lo hi (i : nat) :
  (Z.of_nat i < hi - lo) → range lo hi !! i = Some (Int (lo + Z.of_nat i)).
Proof.
  intros Hi. unfold range. rewrite list_lookup_fmap.
  by rewrite lookup_seqZ_lt by lia.
Qed.

Lemma filter_none {A} (P : A → Prop) `{∀ x, Decision (P x)} (l : list A) :
  Forall (λ x, ¬ P x) l → filter P l = [].
Proof.
  induction 1 as [|x l Hx _ IH]; [done|]. by rewrite filter_cons_False.
Qed.

(** Exactly one element of a list whose keys are distinct has a given key
    that occurs. *)
Lemma filter_key_singleton {A B} `{EqDecision B} (f : A → B) (k : B) (l : list A) :
  NoDup (f <$> l) → k ∈ f <$> l →
  ∃ x, filter (λ y, f y = k) l = [x] ∧ x ∈ l ∧ f x = k.
Proof.
  induction l as [|y l IH]; simpl; intros Hnd Hk.
  - by apply elem_of_nil in Hk.
  - apply NoDup_cons in Hnd as [Hy Hnd]. rewrite filter_cons.
    destruct (decide (f y = k)) as [Heq|Hne].
    + exists y. split; [|split; [left|done]].
      f_equal. apply filter_none.
      apply Forall_forall. intros z Hz Hfz. apply Hy. rewrite Heq, <-Hfz.
      by apply list_elem_of_fmap_2.
    + apply elem_of_cons in Hk as [Hk|Hk]; [congruence|].
      destruct (IH Hnd Hk) as (x & Hx & Hin & Hfx).
      exists x. split; [done|]. split; [by right|done].
Qed.

(** ** The gold stage *)

Lemma dim_geo_setitem sales :
  let d := drop_duplicates (mkDF geo_columns (project geo_columns <$> rows sales)) in
  setitem "GeoKey" (range 1 (Z.of_nat (len d) + 1)) d = Ok (dim_geo_of sales).
Proof.
  intros d. unfold setitem. rewrite decide_True.
  - rewrite decide_False; [done|]. subst d. simpl. unfold geo_columns.
    rewrite !elem_of_cons, elem_of_nil. intros [|[|[|[|[]]]]]; done.
  - rewrite length_range by lia. lia.
Qed.

Section merge_geo.
Context (sales : DataFrame) (Hschema : sales_schema sales).

Lemma geo_in_sales c : c ∈ geo_columns → c ∈ columns sales.
Proof.
  destruct Hschema as (_ & Hreq & _). unfold required_columns in Hreq.
  rewrite !Forall_app in Hreq. destruct Hreq as (_ & _ & Hg & _).
  rewrite Forall_forall in Hg. apply Hg.
Qed.

Lemma fact_in_sales c : c ∈ fact_columns → c ≠ "GeoKey" → c ∈ columns sales.
Proof.
  destruct Hschema as (_ & Hreq & _). rewrite Forall_forall in Hreq.
  intros Hc Hne. apply Hreq. unfold required_columns, product_columns,
    customer_columns, geo_columns. unfold fact_columns in Hc.
  set_solver.
Qed.

Lemma suffixed_left c :
  c ∈ columns sales →
  suffixed sales (dim_geo_of sales) geo_columns "_x" c = c.
Proof.
  intros Hc. unfold suffixed, overlap. rewrite bool_decide_eq_false_2; [done|].
  intros (Hk & _ & Hd). simpl in Hd. unfold geo_columns in Hk.
  destruct Hschema as (_ & _ & Hkey).
  assert (c = "GeoKey") as -> by set_solver. done.
Qed.

Lemma suffixed_right :
  suffixed sales (dim_geo_of sales) geo_columns "_y" "GeoKey" = "GeoKey".
Proof.
  unfold suffixed, overlap. rewrite bool_decide_eq_false_2; [done|].
  intros (_ & Hl & _). by destruct Hschema as (_ & _ & ?).
Qed.

Lemma right_columns :
  filter (λ c, c ∉ geo_columns) (columns (dim_geo_of sales)) = ["GeoKey"].
Proof. reflexivity. Qed.

Lemma merge_row_eq (l r : row) :
  merge_row sales (dim_geo_of sales) geo_columns l r =
  project (columns sales) l ∪ {[ "GeoKey" := get r "GeoKey" ]}.
Proof.
  unfold merge_row. rewrite right_columns. rewrite list_to_map_app.
  f_equal.
  - unfold project. f_equal. apply list_fmap_ext. intros i c Hc.
    rewrite suffixed_left; [done|]. by eapply list_elem_of_lookup_2.
  - simpl. by rewrite suffixed_right, insert_empty.
Qed.

Lemma merge_labels :
  (suffixed sales (dim_geo_of sales) geo_columns "_x" <$> columns sales) ++
  (suffixed sales (dim_geo_of sales) geo_columns "_y" <$>
     filter (λ c, c ∉ geo_columns) (columns (dim_geo_of sales))) =
  columns sales ++ ["GeoKey"].
Proof.
  rewrite right_columns. f_equal.
  - rewrite <-(list_fmap_id (columns sales)) at 2. apply list_fmap_ext.
    intros i c Hc. apply suffixed_left. by eapply list_elem_of_lookup_2.
  - simpl. by rewrite suffixed_right.
Qed.

Lemma merge_dim_geo :
  merge sales (dim_geo_of sales) geo_columns =
  Ok (mkDF (columns sales ++ ["GeoKey"])
        (l ← rows sales;
         r ← filter (λ r, keys_match geo_columns l r) (rows (dim_geo_of sales));
         [merge_row sales (dim_geo_of sales) geo_columns l r])).
Proof.
  unfold merge.
  destruct (list_find _ geo_columns) as [[i k]|] eqn:Hfind.
  { apply list_find_Some in Hfind as (Hi & [Hk|Hk] & _); exfalso; apply Hk.
    - apply geo_in_sales. by eapply list_elem_of_lookup_2.
    - change (k ∈ geo_columns ++ ["GeoKey"]). apply elem_of_app. left.
      by eapply list_elem_of_lookup_2. }
  cbv zeta. rewrite merge_labels. rewrite decide_True; [done|].
  destruct Hschema as (Hnd & _ & Hkey).
  apply NoDup_app. split; [done|]. split; [|apply NoDup_singleton].
  intros c Hc ->%list_elem_of_singleton. done.
Qed.

Lemma get_merge_row_left (l r : row) c :
  c ∈ columns sales →
  get (merge_row sales (dim_geo_of sales) geo_columns l r) c = get l c.
Proof.
  intros Hc. rewrite merge_row_eq. unfold get at 1.
  rewrite lookup_union_l'.
  - by rewrite lookup_project, decide_True.
  - rewrite lookup_project, decide_True; done.
Qed.

Lemma get_merge_row_key (l r : row) :
  get (merge_row sales (dim_geo_of sales) geo_columns l r) "GeoKey" =
  get r "GeoKey".
Proof.
  rewrite merge_row_eq. unfold get at 1. rewrite lookup_union_r.
  - by rewrite lookup_singleton_eq.
  - rewrite lookup_project, decide_False; [done|].
    by destruct Hschema as (_ & _ & ?).
Qed.

Lemma project_merge_row (l r : row) :
  project fact_columns (merge_row sales (dim_geo_of sales) geo_columns l r) =
  fact_row l r.
Proof.
  unfold project, fact_columns, fact_row. csimpl.
  rewrite get_merge_row_key.
  rewrite !get_merge_row_left;
    solve [done | apply fact_in_sales; [unfold fact_columns; set_solver | done]].
Qed.
End merge_geo.

Lemma keys_match_geo (l r : row) : keys_match geo_columns l r ↔ geo_equal l r.
Proof.
  unfold keys_match, geo_equal, geo_columns.
  rewrite bool_decide_spec, !Forall_cons, Forall_nil. tauto.
Qed.

Lemma build_gold_Ok sales :
  sales_schema sales →
  build_gold sales = Ok (mkGold
    (mkDF product_columns (unique (project product_columns <$> rows sales)))
    (mkDF customer_columns (unique (project customer_columns <$> rows sales)))
    (dim_geo_of sales)
    (mkDF fact_columns
       (inner_join_on_geo (rows sales) (rows (dim_geo_of sales))))).
Proof.
  intros Hschema. pose proof Hschema as (Hnd & Hreq & Hkey). unfold build_gold.
  unfold required_columns in Hreq. rewrite !Forall_app in Hreq.
  destruct Hreq as (Hp & Hc & Hg & Hrest).
  rewrite !getitems_Ok by done. simpl.
  rewrite dim_geo_setitem. simpl. rewrite merge_dim_geo by done. simpl.
  rewrite getitems_Ok; simpl.
  - do 3 f_equal. unfold inner_join_on_geo.
    induction (rows sales) as [|l ls IH]; [done|].
    rewrite !bind_cons, fmap_app, IH. f_equal.
    rewrite (list_filter_iff _ (geo_equal l)) by apply keys_match_geo.
    induction (filter (geo_equal l) _) as [|r rs IHr]; [done|].
    rewrite !bind_cons, fmap_app, IHr. f_equal. simpl.
    by rewrite project_merge_row.
  - apply Forall_forall. intros c Hc'. apply elem_of_app.
    destruct (decide (c = "GeoKey")) as [->|Hne]; [right; set_solver|left].
    by apply fact_in_sales.
Qed.

(** ** Integers as cells *)

Lemma Int_inj (a b : Z) : Int a = Int b → a = b.
Proof.
  unfold Int. by intros [= Heq].
Qed.

Lemma Qc_trunc_of_Z (z : Z) : Qc_trunc (Qc_of_Z z) = z.
Proof. unfold Qc_trunc. simpl. apply Z.quot_1_r. Qed.

(** ** The geography dimension *)

Lemma length_keyed ts : length (keyed ts) = length ts.
Proof.
  unfold keyed. rewrite length_zip_with, length_range by lia. lia.
Qed.

Lemma keyed_lookup ts (i : nat) (t : row) :
  ts !! i = Some t →
  keyed ts !! i = Some (<["GeoKey" := Int (1 + Z.of_nat i)]> t).
Proof.
  intros Hi. pose proof (lookup_lt_Some _ _ _ Hi) as Hlt.
  unfold keyed. rewrite lookup_zip_with, Hi. simpl.
  rewrite range_lookup by lia. done.
Qed.

Lemma keyed_lookup_inv ts (i : nat) (d : row) :
  keyed ts !! i = Some d →
  ∃ t, ts !! i = Some t ∧ d = <["GeoKey" := Int (1 + Z.of_nat i)]> t.
Proof.
  intros Hi. pose proof (lookup_lt_Some _ _ _ Hi) as Hlt.
  rewrite length_keyed in Hlt.
  destruct (lookup_lt_is_Some_2 ts i Hlt) as [t Ht].
  exists t. split; [done|]. rewrite (keyed_lookup _ _ _ Ht) in Hi. congruence.
Qed.

Lemma get_insert_eq (r : row) c v : get (<[c := v]> r) c = v.
Proof. unfold get. by rewrite lookup_insert_eq. Qed.

Lemma get_insert_ne (r : row) c d v : c ≠ d → get (<[c := v]> r) d = get r d.
Proof. intros Hne. unfold get. by rewrite lookup_insert_ne. Qed.

(** Every distinct tuple is the projection of a sales row, so numbering it
    does not touch its four columns. *)
Lemma geo_tuples_projected sales (t : row) :
  t ∈ geo_tuples sales → project geo_columns t = t.
Proof.
  unfold geo_tuples. rewrite elem_of_unique, list_elem_of_fmap.
  intros (r & -> & _). apply project_idemp.
Qed.

Lemma project_keyed_row (t : row) v :
  project geo_columns t = t → project geo_columns (<["GeoKey" := v]> t) = t.
Proof.
  intros Ht. rewrite project_insert_ne; [done|].
  unfold geo_columns. set_solver.
Qed.

Lemma project_dim_geo sales :
  project geo_columns <$> rows (dim_geo_of sales) = geo_tuples sales.
Proof.
  simpl. apply list_eq. intros i. rewrite list_lookup_fmap.
  destruct (geo_tuples sales !! i) as [t|] eqn:Ht.
  - rewrite (keyed_lookup _ _ _ Ht). simpl. f_equal.
    apply project_keyed_row. eapply geo_tuples_projected, list_elem_of_lookup_2, Ht.
  - destruct (keyed (geo_tuples sales) !! i) as [d|] eqn:Hd; [|done].
    apply keyed_lookup_inv in Hd as (t & Ht' & _). congruence.
Qed.

Lemma geo_equal_project (s d : row) :
  geo_equal s d ↔ project geo_columns d = project geo_columns s.
Proof.
  rewrite project_eq_iff, <-keys_match_geo. unfold keys_match.
  rewrite bool_decide_spec, !Forall_forall. split; intros Hall c Hc; by rewrite Hall.
Qed.

(** By construction every sales row finds its tuple in the dimension. *)
Lemma geo_tuple_in_dim sales (s : row) :
  s ∈ rows sales → Exists (geo_equal s) (rows (dim_geo_of sales)).
Proof.
  intros Hs.
  assert (Hin : project geo_columns s ∈ project geo_columns <$> rows (dim_geo_of sales)).
  { rewrite project_dim_geo. unfold geo_tuples. rewrite elem_of_unique.
    by apply list_elem_of_fmap_2. }
  apply list_elem_of_fmap in Hin as (d & Hd & Hin).
  apply Exists_exists. exists d. split; [done|]. by apply geo_equal_project.
Qed.

(** A sales row whose tuple is in the dimension is joined with exactly one
    row of it: the tuples of the dimension are distinct. *)
Lemma one_match sales (s : row) :
  Exists (geo_equal s) (rows (dim_geo_of sales)) →
  ∃ d, filter (geo_equal s) (rows (dim_geo_of sales)) = [d] ∧
       d ∈ rows (dim_geo_of sales) ∧ geo_equal s d.
Proof.
  intros (d & Hd & Heq)%Exists_exists.
  destruct (filter_key_singleton (project geo_columns) (project geo_columns s)
              (rows (dim_geo_of sales))) as (d' & Hf & Hin & Hk).
  - rewrite project_dim_geo. apply NoDup_unique.
  - apply list_elem_of_fmap. exists d. split; [|done].
    symmetry. by apply geo_equal_project.
  - exists d'. split; [|split; [done|by apply geo_equal_project]].
    rewrite <-Hf. apply list_filter_iff. intros x. apply geo_equal_project.
Qed.

Lemma inner_join_length (S D : list row) :
  Forall (λ s, ∃ d, filter (geo_equal s) D = [d]) S →
  length (inner_join_on_geo S D) = length S.
Proof.
  unfold inner_join_on_geo. induction 1 as [|s S [d Hd] _ IH]; [done|].
  rewrite bind_cons, length_app, IH, Hd. done.
Qed.

(** ** Claims on the gold stage *)

Lemma Ok_inj {A} (a b : A) : Ok a = Ok b → a = b.
Proof. by intros [= ->]. Qed.

Lemma fact_len_of_matches sales :
  Forall (λ s, Exists (geo_equal s) (rows (dim_geo_of sales))) (rows sales) →
  length (inner_join_on_geo (rows sales) (rows (dim_geo_of sales))) =
  length (rows sales).
Proof.
  intros Hall. apply inner_join_length.
  eapply Forall_impl; [exact Hall|]. intros s Hs. simpl in Hs.
  destruct (one_match sales s Hs) as (d & Hd & _). by exists d.
Qed.

Lemma fact_len sales :
  length (inner_join_on_geo (rows sales) (rows (dim_geo_of sales))) =
  length (rows sales).
Proof.
  apply fact_len_of_matches, Forall_forall. intros s Hs.
  by apply geo_tuple_in_dim.
Qed.

(** C1: when every sales row finds its geography tuple in [dim_geo] (in
    particular when no geography field is missing), the fact table that
    the gold stage builds has as many rows as the cleaned sales table. *)
Theorem fact_sales_row_count sales :
  sales_schema sales →
  ∃ g, build_gold sales = Ok g ∧
    (Forall (λ s, Exists (geo_equal s) (rows (dim_geo g))) (rows sales) →
     len (fact_sales g) = len sales) ∧
    (Forall geo_complete (rows sales) → len (fact_sales g) = len sales).
Proof.
  intros Hschema. eexists. split; [by apply build_gold_Ok|]. simpl. split.
  - apply fact_len_of_matches.
  - intros _. apply fact_len.
Qed.

Lemma fact_sales_row_count_witness :
  ∃ g, build_gold sample_sales = Ok g ∧ len (fact_sales g) = len sample_sales.
Proof.
  assert (Hschema : sales_schema sample_sales) by compute_done.
  destruct (fact_sales_row_count sample_sales Hschema) as (g & Hg & Hlen & _).
  exists g. split; [exact Hg|]. apply Hlen.
  assert (Hgold : build_gold sample_sales = Ok sample_gold)
    by (vm_compute; reflexivity).
  rewrite Hgold in Hg. apply Ok_inj in Hg. subst g. compute_done.
Defined.

Lemma dom_fact_row (s d : row) : dom (fact_row s d) = list_to_set fact_columns.
Proof.
  unfold fact_row, fact_columns. rewrite !dom_insert_L, dom_empty_L.
  simpl. set_solver.
Qed.

Lemma elem_of_inner_join (S D : list row) (f : row) :
  f ∈ inner_join_on_geo S D ↔
  ∃ s d, s ∈ S ∧ d ∈ D ∧ geo_equal s d ∧ f = fact_row s d.
Proof.
  unfold inner_join_on_geo. rewrite list_elem_of_bind. split.
  - intros (s & Hf & Hs). apply list_elem_of_bind in Hf as (d & Hf & Hd).
    apply list_elem_of_filter in Hd as [Heq Hd].
    apply list_elem_of_singleton in Hf. by exists s, d.
  - intros (s & d & Hs & Hd & Heq & ->). exists s. split; [|done].
    apply list_elem_of_bind. exists d. split; [by apply list_elem_of_singleton|].
    by apply list_elem_of_filter.
Qed.

(** C2: the fact table is the equality inner join of the cleaned sales rows
    with [dim_geo] on the four geography columns at once, projected to
    exactly the six columns ProductKey, CustomerKey, GeoKey, OrderDate,
    Quantity and Net Price. *)
Theorem fact_sales_is_inner_join sales :
  sales_schema sales →
  ∃ g, build_gold sales = Ok g ∧
    columns (fact_sales g) = fact_columns ∧
    rows (fact_sales g) = inner_join_on_geo (rows sales) (rows (dim_geo g)) ∧
    Forall (λ f, dom f = list_to_set fact_columns) (rows (fact_sales g)) ∧
    (∀ f, f ∈ rows (fact_sales g) ↔
          ∃ s d, s ∈ rows sales ∧ d ∈ rows (dim_geo g) ∧ geo_equal s d ∧
                 f = fact_row s d).
Proof.
  intros Hschema. eexists. split; [by apply build_gold_Ok|]. simpl.
  split; [done|]. split; [done|]. split.
  - apply Forall_forall. intros f (s & d & _ & _ & _ & ->)%elem_of_inner_join.
    apply dom_fact_row.
  - intros f. apply elem_of_inner_join.
Qed.

Lemma fact_sales_is_inner_join_witness :
  ∃ g, build_gold sample_sales = Ok g ∧
       rows (fact_sales g) =
       inner_join_on_geo (rows sample_sales) (rows (dim_geo g)).
Proof.
  assert (Hschema : sales_schema sample_sales) by compute_done.
  destruct (fact_sales_is_inner_join sample_sales Hschema)
    as (g & Hg & _ & Hrows & _).
  exists g. split; assumption.
Defined.

(** C3: the GeoKey column of [dim_geo] is the sequence 1, 2, ..., len(dim_geo)
    without repetition, and the keys go to the distinct geography tuples in
    the order in which these first appear in the cleaned sales table. *)
Theorem geo_keys_contiguous sales :
  sales_schema sales →
  ∃ g, build_gold sales = Ok g ∧
    let tuples := project geo_columns <$> rows sales in
    getitem "GeoKey" (dim_geo g) =
      Ok (Int <$> seqZ 1 (Z.of_nat (len (dim_geo g)))) ∧
    NoDup ((λ d, get d "GeoKey") <$> rows (dim_geo g)) ∧
    NoDup (project geo_columns <$> rows (dim_geo g)) ∧
    (∀ t, t ∈ tuples ↔ t ∈ project geo_columns <$> rows (dim_geo g)) ∧
    (∀ (i : nat) d, rows (dim_geo g) !! i = Some d →
       get d "GeoKey" = Int (Z.of_nat i + 1) ∧
       ∃ p, first_at tuples p (project geo_columns d)) ∧
    (∀ d e (a b : Z) (p q : nat),
       d ∈ rows (dim_geo g) → e ∈ rows (dim_geo g) →
       get d "GeoKey" = Int a → get e "GeoKey" = Int b → a < b →
       first_at tuples p (project geo_columns d) →
       first_at tuples q (project geo_columns e) → (p < q)%nat).
Proof.
  intros Hschema. eexists. split; [by apply build_gold_Ok|]. simpl.
  assert (Hkeys : (λ d : row, get d "GeoKey") <$> keyed (geo_tuples sales) =
                  Int <$> seqZ 1 (Z.of_nat (length (keyed (geo_tuples sales))))).
  { apply list_eq. intros i. rewrite !list_lookup_fmap, length_keyed.
    destruct (geo_tuples sales !! i) as [t|] eqn:Ht.
    - rewrite (keyed_lookup _ _ _ Ht). simpl. rewrite get_insert_eq.
      pose proof (lookup_lt_Some _ _ _ Ht).
      by rewrite lookup_seqZ_lt by lia.
    - destruct (keyed (geo_tuples sales) !! i) as [d|] eqn:Hd.
      { apply keyed_lookup_inv in Hd as (t & Ht' & _). congruence. }
      apply lookup_ge_None in Ht. simpl.
      by rewrite lookup_seqZ_ge by lia. }
  pose proof (project_dim_geo sales) as Hproj. simpl in Hproj.
  split; [|split; [|split; [|split; [|split]]]].
  - rewrite getitem_Ok by (simpl; set_solver). simpl. by rewrite Hkeys.
  - rewrite Hkeys. apply NoDup_fmap_2; [intros a b; apply Int_inj|].
    apply NoDup_seqZ.
  - rewrite Hproj. apply NoDup_unique.
  - intros t. rewrite Hproj. unfold geo_tuples. by rewrite elem_of_unique.
  - intros i d Hd. apply keyed_lookup_inv in Hd as (t & Ht & ->).
    rewrite get_insert_eq. split; [f_equal; lia|].
    rewrite project_keyed_row
      by (eapply geo_tuples_projected, list_elem_of_lookup_2, Ht).
    eapply unique_first_at, Ht.
  - intros d e a b p q [i Hd]%list_elem_of_lookup [j He]%list_elem_of_lookup.
    apply keyed_lookup_inv in Hd as (t & Ht & ->).
    apply keyed_lookup_inv in He as (u & Hu & ->).
    rewrite !get_insert_eq. intros <-%Int_inj <-%Int_inj Hab Hp Hq.
    assert (Hij : (i < j)%nat) by lia.
    rewrite project_keyed_row in Hp
      by (eapply geo_tuples_projected, list_elem_of_lookup_2, Ht).
    rewrite project_keyed_row in Hq
      by (eapply geo_tuples_projected, list_elem_of_lookup_2, Hu).
    eapply (unique_order _ i j); eauto.
Qed.

Lemma geo_keys_contiguous_witness :
  ∃ g, build_gold sample_sales = Ok g ∧
       getitem "GeoKey" (dim_geo g) = Ok [Int 1; Int 2].
Proof.
  assert (Hschema : sales_schema sample_sales) by compute_done.
  destruct (geo_keys_contiguous sample_sales Hschema) as (g & Hg & Hkeys & _).
  exists g. split; [exact Hg|]. rewrite Hkeys.
  assert (Hgold : build_gold sample_sales = Ok sample_gold)
    by (vm_compute; reflexivity).
  rewrite Hgold in Hg. apply Ok_inj in Hg. subst g. vm_compute. reflexivity.
Defined.

(** C7: no dimension table has more rows than the cleaned sales table. *)
Theorem dimensions_not_larger sales :
  sales_schema sales →
  ∃ g, build_gold sales = Ok g ∧
    (len (dim_product g) ≤ len sales)%nat ∧
    (len (dim_customer g) ≤ len sales)%nat ∧
    (len (dim_geo g) ≤ len sales)%nat.
Proof.
  intros Hschema. eexists. split; [by apply build_gold_Ok|].
  unfold len. simpl. rewrite length_keyed. unfold geo_tuples.
  split; [|split];
    (etrans; [apply length_unique|]; by rewrite length_fmap).
Qed.

Lemma dimensions_not_larger_witness :
  ∃ g, build_gold sample_sales = Ok g ∧
    (len (dim_product g) ≤ 3)%nat ∧ (len (dim_customer g) ≤ 3)%nat ∧
    (len (dim_geo g) ≤ 3)%nat.
Proof.
  assert (Hschema : sales_schema sample_sales) by compute_done.
  exact (dimensions_not_larger sample_sales Hschema).
Defined.

(** C10, as the code has it: the join drops no row.  A missing geography
    field is a key value like any other: the tuple of every sales row,
    complete or not, is in [dim_geo] exactly once, so the fact table has
    one row per sales row and in particular no more rows than the sales
    table. *)
Theorem fact_sales_keeps_every_row sales :
  sales_schema sales →
  ∃ g, build_gold sales = Ok g ∧
    len (fact_sales g) = len sales ∧
    (len (fact_sales g) ≤ len sales)%nat ∧
    NoDup (project geo_columns <$> rows (dim_geo g)) ∧
    (∀ s, s ∈ rows sales →
       ∃ d, filter (geo_equal s) (rows (dim_geo g)) = [d] ∧
            fact_row s d ∈ rows (fact_sales g)).
Proof.
  intros Hschema. eexists. split; [by apply build_gold_Ok|]. unfold len. simpl.
  pose proof (fact_len sales) as Hlen. simpl in Hlen.
  split; [done|]. split; [lia|]. split.
  - pose proof (project_dim_geo sales) as Hproj. simpl in Hproj.
    rewrite Hproj. apply NoDup_unique.
  - intros s Hs.
    destruct (one_match sales s (geo_tuple_in_dim sales s Hs))
      as (d & Hf & Hd & Heq).
    exists d. split; [done|]. apply elem_of_inner_join. by exists s, d.
Qed.

Lemma fact_sales_keeps_every_row_witness :
  ∃ g, build_gold sample_sales_null_city = Ok g ∧ len (fact_sales g) = 1%nat.
Proof.
  assert (Hschema : sales_schema sample_sales_null_city) by compute_done.
  destruct (fact_sales_keeps_every_row _ Hschema) as (g & Hg & Hlen & _).
  exists g. split; [exact Hg|]. rewrite Hlen. vm_compute. reflexivity.
Defined.

(** C10 as stated fails: the one sale of [sample_sales_null_city] has no
    city, so no sales row is complete, and yet the fact table has a row. *)
Lemma fact_sales_counts_incomplete_rows :
  ∃ g, build_gold sample_sales_null_city = Ok g ∧
    length (filter geo_complete (rows sample_sales_null_city)) = 0%nat ∧
    len (fact_sales g) = 1%nat ∧
    len (fact_sales g) ≠
      length (filter geo_complete (rows sample_sales_null_city)).
Proof.
  eexists. split; [vm_compute; reflexivity|].
  split; [vm_compute; reflexivity|].
  split; [vm_compute; reflexivity|]. vm_compute. discriminate.
Qed.

(** ** Running the stages *)

Lemma bind_run {A B} (m : M A) (k : A → M B) w :
  (m ≫= k) w =
  match m w with (Ok a, w') => k a w' | (Raise e, w') => (Raise e, w') end.
Proof. reflexivity. Qed.

Lemma run_bind_Ok {A B} (m : M A) (k : A → M B) w a w' :
  m w = (Ok a, w') → (m ≫= k) w = k a w'.
Proof. intros Hm. unfold mbind, M_bind. by rewrite Hm. Qed.

Lemma run_bind_Raise {A B} (m : M A) (k : A → M B) w e w' :
  m w = (Raise e, w') → (m ≫= k) w = (Raise e, w').
Proof. intros Hm. unfold mbind, M_bind. by rewrite Hm. Qed.

Lemma deref_run l w df : heap w !! l = Some df → deref l w = (Ok df, w).
Proof. intros Hl. unfold deref. by rewrite Hl. Qed.

Lemma len_at_run l w df : heap w !! l = Some df → len_at l w = (Ok (len df), w).
Proof. intros Hl. unfold len_at. by erewrite run_bind_Ok by by apply deref_run. Qed.

Lemma to_csv_run df dir name w :
  dir ∈ dirs w →
  to_csv df dir name w = (Ok (), set_fs <[path_join dir name := Csv df]> w).
Proof. intros Hd. unfold to_csv. by rewrite decide_True. Qed.

Lemma to_csv_at_run l dir name w df :
  heap w !! l = Some df → dir ∈ dirs w →
  to_csv_at l dir name w = (Ok (), set_fs <[path_join dir name := Csv df]> w).
Proof.
  intros Hl Hd. unfold to_csv_at.
  erewrite run_bind_Ok by by apply deref_run. by apply to_csv_run.
Qed.

Lemma print_run line w :
  print line w = (Ok (), set_stdout (λ out, out ++ [line]) w).
Proof. reflexivity. Qed.

Lemma column_run l c w df :
  heap w !! l = Some df → column l c w = (getitem c df, w).
Proof.
  intros Hl. unfold column. by erewrite run_bind_Ok by by apply deref_run.
Qed.

Lemma assign_run l c values w df df' :
  heap w !! l = Some df → setitem c values df = Ok df' →
  assign l c values w = (Ok (), set_heap <[l := df']> w).
Proof.
  intros Hl Hset. unfold assign.
  erewrite run_bind_Ok by by apply deref_run.
  erewrite run_bind_Ok by (unfold lift; by rewrite Hset). done.
Qed.

(** The check prints one line and returns, whatever the two counts are. *)
Lemma integrity_check_run input_count fact w :
  integrity_check input_count fact w =
  (Ok (),
   set_stdout (λ out, out ++
     [if decide (len fact = input_count)
      then "-> Data Integrity Check: Passed (Sales row count maintained)"
      else "!! WARNING: " +:+
           pretty (Z.of_nat input_count - Z.of_nat (len fact)) +:+
           " rows lost during modeling merge!"]) w).
Proof.
  unfold integrity_check.
  destruct (decide (len fact ≠ input_count)), (decide (len fact = input_count));
    done.
Qed.

(** One step of a run: the next command returns, and the world it leaves
    is put back in normal form. *)
Ltac run_step tac :=
  erewrite run_bind_Ok by tac;
  unfold set_heap, set_fs, set_stdout, set_dirs;
  cbn [heap fs dirs stdout].

Lemma model_to_gold_run s f cfg w sales forecast g :
  heap w !! s = Some sales → heap w !! f = Some forecast →
  build_gold sales = Ok g → final_dir cfg ∈ dirs w →
  model_to_gold s f cfg w =
  (Ok (), mkWorld (heap w) (gold_files (final_dir cfg) g forecast (fs w))
            (dirs w) (stdout w ++ gold_report (len sales) g)).
Proof.
  destruct w as [h files ds out]. cbn [heap fs dirs stdout].
  intros Hs Hf Hg Hdir. unfold model_to_gold.
  run_step ltac:(by apply len_at_run).
  run_step ltac:(by apply deref_run).
  run_step ltac:(unfold lift; by rewrite Hg).
  run_step ltac:(by apply to_csv_run).
  run_step ltac:(by apply to_csv_at_run).
  do 3 run_step ltac:(by apply to_csv_run).
  do 4 run_step ltac:(apply print_run).
  rewrite integrity_check_run.
  unfold set_stdout, gold_files, gold_report. cbn [heap fs dirs stdout].
  do 2 f_equal. rewrite <-!app_assoc. reflexivity.
Qed.

(** ** Column conversions *)

Lemma traverse_Ok {A B} (f : A → result B) l l' :
  traverse f l = Ok l' ↔ Forall2 (λ x y, f x = Ok y) l l'.
Proof.
  revert l'. induction l as [|x l IH]; intros l'; simpl.
  - split; [by intros [= <-]; constructor|]. by intros ->%Forall2_nil_inv_l.
  - destruct (f x) as [y|e] eqn:Hx.
    + destruct (traverse f l) as [ys|e] eqn:Hl.
      * split.
        -- intros [= <-]. constructor; [done|]. by apply IH.
        -- intros (y' & ys' & Hy & Hys & ->)%Forall2_cons_inv_l.
           apply IH in Hys. congruence.
      * split; [done|].
        intros (y' & ys' & Hy & Hys & ->)%Forall2_cons_inv_l.
        apply IH in Hys. done.
    + split; [done|].
      intros (y' & ys' & Hy & Hys & ->)%Forall2_cons_inv_l. congruence.
Qed.

Lemma traverse_length {A B} (f : A → result B) l l' :
  traverse f l = Ok l' → length l' = length l.
Proof. intros Hl%traverse_Ok. symmetry. by eapply Forall2_length. Qed.

Lemma traverse_Raise {A B} (f : A → result B) l :
  Exists (λ x, ∃ e, f x = Raise e) l → ∃ e, traverse f l = Raise e.
Proof.
  induction 1 as [x l [e He]|x l _ [e IH]]; simpl.
  - rewrite He. by exists e.
  - destruct (f x) as [y|e']; [|by exists e']. rewrite IH. by exists e.
Qed.

Lemma length_fillna v s : length (fillna v s) = length s.
Proof. unfold fillna. by rewrite length_fmap. Qed.

Lemma fill_column_Ok c v df :
  c ∈ columns df →
  fill_column c v df =
  Ok (mkDF (columns df) ((λ r, <[c := fill v (get r c)]> r) <$> rows df)).
Proof.
  intros Hc. unfold fill_column. rewrite getitem_Ok by done. simpl.
  unfold setitem. rewrite decide_True
    by (by rewrite length_fillna, length_fmap).
  rewrite decide_True by done. do 2 f_equal.
  unfold fillna. rewrite !zip_with_fmap_r. by rewrite zip_with_diag.
Qed.

Lemma fill_column_Raise c v df :
  c ∉ columns df → fill_column c v df = Raise (KeyError c).
Proof. intros Hc. unfold fill_column, getitem. by rewrite decide_False. Qed.

Lemma convert_column_Ok c f df vs :
  c ∈ columns df → f ((λ r, get r c) <$> rows df) = Ok vs →
  length vs = len df →
  convert_column c f df =
  Ok (mkDF (columns df) (zip_with (λ r v, <[c := v]> r) (rows df) vs)).
Proof.
  intros Hc Hf Hlen. unfold convert_column. rewrite getitem_Ok by done. simpl.
  rewrite Hf. simpl. unfold setitem. by rewrite !decide_True.
Qed.

Lemma convert_column_inv c f df df' :
  convert_column c f df = Ok df' →
  c ∈ columns df ∧
  ∃ vs, f ((λ r, get r c) <$> rows df) = Ok vs ∧ length vs = len df ∧
        df' = mkDF (columns df) (zip_with (λ r v, <[c := v]> r) (rows df) vs).
Proof.
  unfold convert_column, getitem.
  destruct (decide (c ∈ columns df)) as [Hc|]; [|done]. simpl.
  destruct (f _) as [vs|e] eqn:Hvs; [|done]. simpl.
  unfold setitem. destruct (decide (length vs = len df)) as [Hlen|]; [|done].
  rewrite decide_True by done. intros [= <-]. eauto.
Qed.

(** ** The silver stage, step by step *)

Lemma path_join_ne dir a b : a ≠ b → path_join dir a ≠ path_join dir b.
Proof.
  intros Hne Heq. apply Hne. unfold path_join in Heq.
  apply (inj (String.app dir)) in Heq. by apply (inj (String.app "/")) in Heq.
Qed.

Lemma to_csv_at_Raise l dir name w df :
  heap w !! l = Some df → dir ∉ dirs w →
  to_csv_at l dir name w = (Raise (OSError (path_join dir name)), w).
Proof.
  intros Hl Hd. unfold to_csv_at.
  erewrite run_bind_Ok by by apply deref_run.
  unfold to_csv. by rewrite decide_False.
Qed.

Lemma convert_bind {B} l c f (rest : M B) w df :
  heap w !! l = Some df →
  (s ← column l c; s' ← lift (f s); assign l c s';; rest) w =
  match convert_column c f df with
  | Ok df' => rest (set_heap <[l := df']> w)
  | Raise e => (Raise e, w)
  end.
Proof.
  intros Hl. unfold mbind at 1, M_bind. rewrite (column_run _ _ _ _ Hl).
  unfold convert_column. destruct (getitem c df) as [s|e]; simpl; [|done].
  unfold mbind at 1, M_bind, lift. destruct (f s) as [s'|e]; simpl; [|done].
  unfold mbind at 1, M_bind, assign. rewrite !bind_run, (deref_run _ _ _ Hl).
  unfold lift. by destruct (setitem c s' df).
Qed.

Lemma fill_bind {B} l c v (rest : M B) w df :
  heap w !! l = Some df →
  (s ← column l c; assign l c (fillna v s);; rest) w =
  match fill_column c v df with
  | Ok df' => rest (set_heap <[l := df']> w)
  | Raise e => (Raise e, w)
  end.
Proof.
  intros Hl. unfold mbind at 1, M_bind. rewrite (column_run _ _ _ _ Hl).
  unfold fill_column. destruct (getitem c df) as [s|e]; simpl; [|done].
  unfold mbind at 1, M_bind, assign. rewrite !bind_run, (deref_run _ _ _ Hl).
  unfold lift. by destruct (setitem c _ df).
Qed.

Section silver_run.
Context `{Parsers}.

Lemma clean_sales_steps S R :
  clean_sales S = R →
  match convert_column "OrderDate" to_datetime S with
  | Raise e => R = Raise e
  | Ok S1 =>
      match fill_column "Name" (Str "Unknown") S1 with
      | Raise e => R = Raise e
      | Ok S2 =>
          match fill_column "Education" (Str "Not Provided") S2 with
          | Raise e => R = Raise e
          | Ok S3 => R = fill_column "Occupation" (Str "Not Provided") S3
          end
      end
  end.
Proof.
  intros <-. unfold clean_sales.
  destruct (convert_column _ _ S) as [S1|]; simpl; [|done].
  destruct (fill_column "Name" _ S1) as [S2|]; simpl; [|done].
  by destruct (fill_column "Education" _ S2) as [S3|].
Qed.

(** The sales conversions, run on the caller's frame: on success the frame
    is the cleaned one, on failure nothing was written or printed. *)
Lemma silver_sales_steps {B} s (rest : M B) h files ds out S :
  h !! s = Some S →
  let sales_lines :=
    (d ← column s "OrderDate";
     d ← lift (to_datetime d);
     assign s "OrderDate" d;;
     c ← column s "Name";
     assign s "Name" (fillna (Str "Unknown") c);;
     c ← column s "Education";
     assign s "Education" (fillna (Str "Not Provided") c);;
     c ← column s "Occupation";
     assign s "Occupation" (fillna (Str "Not Provided") c);;
     rest) in
  match clean_sales S with
  | Ok S' =>
      sales_lines (mkWorld h files ds out) =
      rest (mkWorld (<[s := S']> h) files ds out)
  | Raise e =>
      ∃ h', sales_lines (mkWorld h files ds out) =
            (Raise e, mkWorld h' files ds out) ∧
            ∀ l, l ≠ s → h' !! l = h !! l
  end.
Proof.
  intros Hs sales_lines. subst sales_lines.
  pose proof (clean_sales_steps S _ eq_refl) as Hsteps.
  rewrite (convert_bind _ _ _ _ _ S) by done.
  destruct (convert_column "OrderDate" to_datetime S) as [S1|e].
  2:{ rewrite Hsteps. eauto. }
  unfold set_heap; simpl.
  rewrite (fill_bind _ _ _ _ _ S1) by (simpl; by rewrite lookup_insert_eq).
  destruct (fill_column "Name" _ S1) as [S2|e].
  2:{ rewrite Hsteps. eexists. split; [done|].
      intros l Hl. by rewrite lookup_insert_ne. }
  unfold set_heap; simpl. rewrite insert_insert_eq.
  rewrite (fill_bind _ _ _ _ _ S2) by (simpl; by rewrite lookup_insert_eq).
  destruct (fill_column "Education" _ S2) as [S3|e].
  2:{ rewrite Hsteps. eexists. split; [done|].
      intros l Hl. by rewrite lookup_insert_ne. }
  unfold set_heap; simpl. rewrite insert_insert_eq.
  rewrite (fill_bind _ _ _ _ _ S3) by (simpl; by rewrite lookup_insert_eq).
  rewrite Hsteps.
  destruct (fill_column "Occupation" _ S3) as [S4|e].
  2:{ eexists. split; [done|]. intros l Hl. by rewrite lookup_insert_ne. }
  unfold set_heap; simpl. by rewrite insert_insert_eq.
Qed.

(** The stage follows the pure cleaning of the two frames.  It writes each
    converted column into the caller's frame as it goes, so a failure on
    the forecast leaves the sales frame cleaned; the files and the report
    come only after every conversion has succeeded. *)
Lemma transform_to_silver_Ok s f cfg w S F S' F' :
  heap w !! s = Some S → heap w !! f = Some F → s ≠ f →
  processed_dir cfg ∈ dirs w →
  clean_sales S = Ok S' → clean_forecast F = Ok F' →
  transform_to_silver s f cfg w =
  (Ok (s, f),
   mkWorld (<[f := F']> (<[s := S']> (heap w)))
           (silver_files (processed_dir cfg) S' F' (fs w))
           (dirs w) (stdout w ++ silver_report (len S) (len S'))).
Proof.
  destruct w as [h files ds out]. simpl. intros Hs Hf Hne Hdir HS HF.
  unfold transform_to_silver.
  erewrite run_bind_Ok by by apply len_at_run.
  epose proof (silver_sales_steps s _ h files ds out S Hs) as Hsales.
  simpl in Hsales. rewrite HS in Hsales. rewrite Hsales. clear Hsales.
  rewrite (convert_bind _ _ _ _ _ F) by (simpl; by rewrite lookup_insert_ne).
  unfold clean_forecast in HF. rewrite HF. unfold set_heap; simpl.
  erewrite run_bind_Ok; cycle 1.
  { apply to_csv_at_run; simpl; [|done].
    rewrite lookup_insert_ne by done. apply lookup_insert_eq. }
  erewrite run_bind_Ok; cycle 1.
  { apply to_csv_at_run; simpl; [|done]. apply lookup_insert_eq. }
  erewrite run_bind_Ok by apply print_run.
  erewrite run_bind_Ok; cycle 1.
  { apply len_at_run; simpl.
    rewrite lookup_insert_ne by done. apply lookup_insert_eq. }
  erewrite run_bind_Ok by apply print_run.
  unfold set_fs, set_stdout, silver_files, silver_report. simpl.
  by rewrite <-!app_assoc.
Qed.

Lemma transform_to_silver_Raise_forecast s f cfg w S F S' e :
  heap w !! s = Some S → heap w !! f = Some F → s ≠ f →
  clean_sales S = Ok S' → clean_forecast F = Raise e →
  transform_to_silver s f cfg w =
  (Raise e, mkWorld (<[s := S']> (heap w)) (fs w) (dirs w) (stdout w)).
Proof.
  destruct w as [h files ds out]. simpl. intros Hs Hf Hne HS HF.
  unfold transform_to_silver.
  erewrite run_bind_Ok by by apply len_at_run.
  epose proof (silver_sales_steps s _ h files ds out S Hs) as Hsales.
  simpl in Hsales. rewrite HS in Hsales. rewrite Hsales. clear Hsales.
  rewrite (convert_bind _ _ _ _ _ F) by (simpl; by rewrite lookup_insert_ne).
  unfold clean_forecast in HF. by rewrite HF.
Qed.

Lemma transform_to_silver_Raise_sales s f cfg w S e :
  heap w !! s = Some S → clean_sales S = Raise e →
  ∃ h, transform_to_silver s f cfg w =
       (Raise e, mkWorld h (fs w) (dirs w) (stdout w)) ∧
       ∀ l, l ≠ s → h !! l = heap w !! l.
Proof.
  destruct w as [h files ds out]. simpl. intros Hs HS.
  unfold transform_to_silver.
  erewrite run_bind_Ok by by apply len_at_run.
  epose proof (silver_sales_steps s _ h files ds out S Hs) as Hsales.
  simpl in Hsales. rewrite HS in Hsales. exact Hsales.
Qed.

Lemma transform_to_silver_Raise_dir s f cfg w S F S' F' :
  heap w !! s = Some S → heap w !! f = Some F → s ≠ f →
  processed_dir cfg ∉ dirs w →
  clean_sales S = Ok S' → clean_forecast F = Ok F' →
  transform_to_silver s f cfg w =
  (Raise (OSError (path_join (processed_dir cfg) "cleaned_sales.csv")),
   mkWorld (<[f := F']> (<[s := S']> (heap w))) (fs w) (dirs w) (stdout w)).
Proof.
  destruct w as [h files ds out]. simpl. intros Hs Hf Hne Hdir HS HF.
  unfold transform_to_silver.
  erewrite run_bind_Ok by by apply len_at_run.
  epose proof (silver_sales_steps s _ h files ds out S Hs) as Hsales.
  simpl in Hsales. rewrite HS in Hsales. rewrite Hsales. clear Hsales.
  rewrite (convert_bind _ _ _ _ _ F) by (simpl; by rewrite lookup_insert_ne).
  unfold clean_forecast in HF. rewrite HF. unfold set_heap; simpl.
  erewrite run_bind_Raise; [reflexivity|].
  apply (to_csv_at_Raise _ _ _ _ S'); simpl; [|done].
  rewrite lookup_insert_ne by done. apply lookup_insert_eq.
Qed.

(** A run that returns has cleaned both frames and found its directory. *)
Lemma transform_to_silver_inv s f cfg w S F r w' :
  heap w !! s = Some S → heap w !! f = Some F → s ≠ f →
  transform_to_silver s f cfg w = (Ok r, w') →
  r = (s, f) ∧ processed_dir cfg ∈ dirs w ∧
  ∃ S' F', clean_sales S = Ok S' ∧ clean_forecast F = Ok F' ∧
    w' = mkWorld (<[f := F']> (<[s := S']> (heap w)))
           (silver_files (processed_dir cfg) S' F' (fs w))
           (dirs w) (stdout w ++ silver_report (len S) (len S')).
Proof.
  intros Hs Hf Hne Hrun.
  destruct (clean_sales S) as [S'|e] eqn:HS.
  2:{ destruct (transform_to_silver_Raise_sales s f cfg w S e Hs HS)
        as (h & Hraise & _). congruence. }
  destruct (clean_forecast F) as [F'|e] eqn:HF.
  2:{ rewrite (transform_to_silver_Raise_forecast s f cfg w S F S' e) in Hrun;
        done. }
  destruct (decide (processed_dir cfg ∈ dirs w)) as [Hdir|Hdir].
  2:{ rewrite (transform_to_silver_Raise_dir s f cfg w S F S' F') in Hrun;
        done. }
  rewrite (transform_to_silver_Ok s f cfg w S F S' F') in Hrun by done.
  injection Hrun as <- <-. split; [done|]. split; [done|]. by exists S', F'.
Qed.
End silver_run.

(** ** What cleaning does to a frame *)

Lemma fmap_zip_with {A B C D} (g : C → D) (h : A → B → C) l k :
  g <$> zip_with h l k = zip_with (λ x y, g (h x y)) l k.
Proof.
  revert k. induction l as [|x l IH]; intros [|y k]; simpl; try done.
  by rewrite IH.
Qed.

Lemma Forall2_zip_with_traverse {A B C} (g : B → result C) (k : A → B)
    (h : A → C → A) l vs :
  traverse g (k <$> l) = Ok vs →
  Forall2 (λ r r', ∃ v, g (k r) = Ok v ∧ r' = h r v) l (zip_with h l vs).
Proof.
  intros Hvs%traverse_Ok. revert vs Hvs.
  induction l as [|r l IH]; intros vs Hvs.
  - constructor.
  - apply Forall2_cons_inv_l in Hvs as (v & vs' & Hv & Hvs & ->). simpl.
    constructor; [by exists v|by apply IH].
Qed.

Lemma wrap64_int64 z : int64 (wrap64 z).
Proof.
  unfold int64, wrap64.
  pose proof (Z.mod_pos_bound (z + 2 ^ 63) (2 ^ 64)). lia.
Qed.

Section clean_facts.
Context `{Parsers}.

Lemma clean_sales_Ok S ds :
  Forall (λ c, c ∈ columns S) silver_columns →
  to_datetime ((λ r, get r "OrderDate") <$> rows S) = Ok ds →
  clean_sales S = Ok (mkDF (columns S) (zip_with clean_sales_row (rows S) ds)).
Proof.
  unfold silver_columns. rewrite !Forall_cons.
  intros (Hd & Hn & He & Ho & _) Hds. unfold clean_sales.
  rewrite (convert_column_Ok _ _ _ ds) by
    (try done; apply traverse_length in Hds; by rewrite Hds, length_fmap).
  simpl. rewrite fill_column_Ok by done. simpl.
  rewrite fill_column_Ok by done. simpl.
  rewrite fill_column_Ok by done. simpl.
  do 2 f_equal. rewrite !fmap_zip_with. apply zip_with_ext; [|done..].
  intros r d. unfold clean_sales_row.
  by rewrite !get_insert_ne by done.
Qed.

Lemma clean_sales_inv S S' :
  clean_sales S = Ok S' →
  Forall (λ c, c ∈ columns S) silver_columns ∧
  ∃ ds, to_datetime ((λ r, get r "OrderDate") <$> rows S) = Ok ds ∧
        S' = mkDF (columns S) (zip_with clean_sales_row (rows S) ds).
Proof.
  intros HS. pose proof (clean_sales_steps S _ HS) as Hsteps.
  destruct (convert_column "OrderDate" to_datetime S) as [S1|] eqn:H1; [|done].
  apply convert_column_inv in H1 as (Hd & ds & Hds & _ & ->).
  destruct (decide ("Name" ∈ columns S)) as [Hn|Hn];
    [|by rewrite fill_column_Raise in Hsteps].
  rewrite fill_column_Ok in Hsteps by done.
  destruct (decide ("Education" ∈ columns S)) as [He|He];
    [|by rewrite fill_column_Raise in Hsteps].
  rewrite fill_column_Ok in Hsteps by done.
  destruct (decide ("Occupation" ∈ columns S)) as [Ho|Ho];
    [|by rewrite fill_column_Raise in Hsteps].
  assert (Hcols : Forall (λ c, c ∈ columns S) silver_columns)
    by (unfold silver_columns; by rewrite !Forall_cons).
  split; [done|]. exists ds. split; [done|].
  rewrite (clean_sales_Ok S ds Hcols Hds) in HS. congruence.
Qed.

Lemma clean_forecast_Ok F ys :
  "Year" ∈ columns F →
  astype_int ((λ r, get r "Year") <$> rows F) = Ok ys →
  clean_forecast F =
  Ok (mkDF (columns F) (zip_with (λ r y, <["Year" := y]> r) (rows F) ys)).
Proof.
  intros Hc Hys. unfold clean_forecast. apply convert_column_Ok; try done.
  apply traverse_length in Hys. by rewrite Hys, length_fmap.
Qed.

Lemma clean_forecast_inv F F' :
  clean_forecast F = Ok F' →
  "Year" ∈ columns F ∧
  ∃ ys, astype_int ((λ r, get r "Year") <$> rows F) = Ok ys ∧
        F' = mkDF (columns F) (zip_with (λ r y, <["Year" := y]> r) (rows F) ys).
Proof. intros (Hc & ys & Hys & _ & ->)%convert_column_inv. eauto. Qed.

(** Row by row: each value is converted as a value of its column. *)
Lemma clean_sales_rows S S' :
  clean_sales S = Ok S' →
  columns S' = columns S ∧
  Forall2 (λ r r',
    ∃ d, to_datetime_cell ((λ r, get r "OrderDate") <$> rows S)
           (get r "OrderDate") = Ok d ∧
         r' = clean_sales_row r d) (rows S) (rows S').
Proof.
  intros (_ & ds & Hds & ->)%clean_sales_inv. split; [done|]. simpl.
  by apply (Forall2_zip_with_traverse (to_datetime_cell _)
              (λ r, get r "OrderDate")).
Qed.

Lemma clean_forecast_rows F F' :
  clean_forecast F = Ok F' →
  columns F' = columns F ∧
  Forall2 (λ r r',
    ∃ y, astype_int_cell ((λ r, get r "Year") <$> rows F)
           (get r "Year") = Ok y ∧
         r' = <["Year" := y]> r) (rows F) (rows F').
Proof.
  intros (_ & ys & Hys & ->)%clean_forecast_inv. split; [done|]. simpl.
  by apply (Forall2_zip_with_traverse (astype_int_cell _) (λ r, get r "Year")
              (λ r y, <["Year" := y]> r)).
Qed.

(** When cleaning fails. *)
Lemma to_datetime_cell_Raise col c :
  unparseable col c → to_datetime_cell col c = Raise (DateParseError c).
Proof. destruct c as [|s|q|t]; simpl; try done; by intros ->. Qed.

Lemma astype_int_cell_Raise col c :
  uncastable c → astype_int_cell col c = Raise (IntCastError c).
Proof.
  unfold astype_int_cell. destruct c as [|s|q|t]; simpl; try done.
  by intros ->.
Qed.

Lemma clean_sales_fails S :
  Exists (λ r, unparseable ((λ r, get r "OrderDate") <$> rows S)
                 (get r "OrderDate")) (rows S) →
  ∃ e, clean_sales S = Raise e.
Proof.
  intros Hbad. destruct (clean_sales S) as [S'|e] eqn:HS; [|eauto].
  apply clean_sales_inv in HS as (_ & ds & Hds & _).
  destruct (traverse_Raise
              (to_datetime_cell ((λ r, get r "OrderDate") <$> rows S))
              ((λ r, get r "OrderDate") <$> rows S))
    as [e He]; [|unfold to_datetime in Hds; congruence].
  apply Exists_fmap. eapply Exists_impl; [exact Hbad|].
  intros r Hr. simpl. eexists. by apply to_datetime_cell_Raise.
Qed.

Lemma clean_forecast_fails F :
  Exists (λ r, uncastable (get r "Year")) (rows F) →
  ∃ e, clean_forecast F = Raise e.
Proof.
  intros Hbad. destruct (clean_forecast F) as [F'|e] eqn:HF; [|eauto].
  apply clean_forecast_inv in HF as (_ & ys & Hys & _).
  destruct (traverse_Raise
              (astype_int_cell ((λ r, get r "Year") <$> rows F))
              ((λ r, get r "Year") <$> rows F))
    as [e He]; [|unfold astype_int in Hys; congruence].
  apply Exists_fmap. eapply Exists_impl; [exact Hbad|].
  intros r Hr. simpl. eexists. by apply astype_int_cell_Raise.
Qed.
End clean_facts.

(** ** Cleaned rows *)


Lemma fill_fill v c : v ≠ Null → fill v (fill v c) = fill v c.
Proof. unfold fill. destruct c, v; simpl; done. Qed.

Lemma clean_sales_row_date (r : row) d : get (clean_sales_row r d) "OrderDate" = d.
Proof.
  unfold clean_sales_row. rewrite !get_insert_ne by done. apply get_insert_eq.
Qed.

Lemma clean_sales_row_name (r : row) d :
  get (clean_sales_row r d) "Name" = fill (Str "Unknown") (get r "Name").
Proof.
  unfold clean_sales_row. rewrite !get_insert_ne by done. apply get_insert_eq.
Qed.

Lemma clean_sales_row_education (r : row) d :
  get (clean_sales_row r d) "Education" =
  fill (Str "Not Provided") (get r "Education").
Proof.
  unfold clean_sales_row. rewrite !get_insert_ne by done. apply get_insert_eq.
Qed.

Lemma clean_sales_row_occupation (r : row) d :
  get (clean_sales_row r d) "Occupation" =
  fill (Str "Not Provided") (get r "Occupation").
Proof. unfold clean_sales_row. apply get_insert_eq. Qed.


Lemma insert_get_id (r : row) c : c ∈ dom r → <[c := get r c]> r = r.
Proof.
  intros [v Hv]%elem_of_dom. apply insert_id. unfold get. by rewrite Hv.
Qed.

(** A cleaned row is a fixed point of cleaning. *)
Lemma clean_sales_row_fixed (r : row) d :
  d = Null ∨ (∃ t, d = Timestamp t) →
  let r' := clean_sales_row r d in
  clean_sales_row r' (get r' "OrderDate") = r'.
Proof.
  intros Hd r'. unfold clean_sales_row at 1.
  rewrite insert_get_id.
  2:{ subst r'. unfold clean_sales_row. rewrite !dom_insert_L. set_solver. }
  replace (fill (Str "Unknown") (get r' "Name")) with (get r' "Name")
    by (subst r'; by rewrite clean_sales_row_name, fill_fill).
  rewrite insert_get_id.
  2:{ subst r'. unfold clean_sales_row. rewrite !dom_insert_L. set_solver. }
  replace (fill (Str "Not Provided") (get r' "Education"))
    with (get r' "Education")
    by (subst r'; by rewrite clean_sales_row_education, fill_fill).
  rewrite insert_get_id.
  2:{ subst r'. unfold clean_sales_row. rewrite !dom_insert_L. set_solver. }
  replace (fill (Str "Not Provided") (get r' "Occupation"))
    with (get r' "Occupation")
    by (subst r'; by rewrite clean_sales_row_occupation, fill_fill).
  apply insert_get_id.
  subst r'. unfold clean_sales_row. rewrite !dom_insert_L. set_solver.
Qed.

Section idempotence.
Context `{Parsers}.

Lemma to_datetime_cell_range col c d :
  to_datetime_cell col c = Ok d → d = Null ∨ ∃ t, d = Timestamp t.
Proof.
  destruct c as [|s|q|t]; simpl.
  - intros [= <-]. by left.
  - destruct (parse_datetime col s) as [[t|]|]; [| |done];
      intros [= <-]; eauto.
  - destruct (epoch_datetime col q); [|done]. intros [= <-]. eauto.
  - intros [= <-]. eauto.
Qed.

Lemma to_datetime_cell_fixed col d :
  d = Null ∨ (∃ t, d = Timestamp t) → to_datetime_cell col d = Ok d.
Proof. by intros [->|[t ->]]. Qed.

Lemma astype_int_cell_range col c y :
  astype_int_cell col c = Ok y → ∃ z, y = Int z ∧ int64 z.
Proof.
  unfold astype_int_cell. destruct (int_of_cell c) as [z|e]; simpl; [|done].
  destruct (decide (int64 z)) as [Hz|_].
  - intros [= <-]. eauto.
  - destruct (overflow_int col z) as [z'|]; [|done]. intros [= <-].
    exists (wrap64 z'). split; [done|apply wrap64_int64].
Qed.

Lemma astype_int_cell_fixed col z :
  int64 z → astype_int_cell col (Int z) = Ok (Int z).
Proof.
  intros Hz. unfold astype_int_cell, Int. cbn [int_of_cell].
  rewrite Qc_trunc_of_Z. simpl. by rewrite decide_True.
Qed.

Lemma traverse_fixed {A} (g : A → result A) l :
  Forall (λ x, g x = Ok x) l → traverse g l = Ok l.
Proof. induction 1 as [|x l Hx _ IH]; simpl; [done|]. by rewrite Hx, IH. Qed.

Lemma clean_sales_idemp S S' : clean_sales S = Ok S' → clean_sales S' = Ok S'.
Proof.
  intros HS. pose proof (clean_sales_inv S S' HS) as (Hcols & _).
  apply clean_sales_rows in HS as [Hc Hrows].
  rewrite (clean_sales_Ok S' ((λ r, get r "OrderDate") <$> rows S')).
  - destruct S' as [cols' rows']. simpl in *. do 2 f_equal.
    rewrite zip_with_fmap_r, zip_with_diag.
    rewrite <-(list_fmap_id rows') at 2. apply list_fmap_ext.
    intros i r' Hr'. simpl.
    destruct (Forall2_lookup_r _ _ _ _ _ Hrows Hr') as (r & _ & d & Hd & ->).
    apply clean_sales_row_fixed. by eapply to_datetime_cell_range.
  - by rewrite Hc.
  - unfold to_datetime.
    apply traverse_fixed, Forall_fmap, Forall_forall. intros r' Hr'. simpl.
    apply list_elem_of_lookup in Hr' as [i Hr'].
    destruct (Forall2_lookup_r _ _ _ _ _ Hrows Hr') as (r & _ & d & Hd & ->).
    rewrite clean_sales_row_date.
    eapply to_datetime_cell_fixed, to_datetime_cell_range, Hd.
Qed.

Lemma clean_forecast_idemp F F' :
  clean_forecast F = Ok F' → clean_forecast F' = Ok F'.
Proof.
  intros HF. pose proof (clean_forecast_inv F F' HF) as (Hcol & _).
  apply clean_forecast_rows in HF as [Hc Hrows].
  rewrite (clean_forecast_Ok F' ((λ r, get r "Year") <$> rows F')).
  - destruct F' as [cols' rows']. simpl in *. do 2 f_equal.
    rewrite zip_with_fmap_r, zip_with_diag.
    rewrite <-(list_fmap_id rows') at 2. apply list_fmap_ext.
    intros i r' Hr'. simpl.
    destruct (Forall2_lookup_r _ _ _ _ _ Hrows Hr') as (r & _ & y & Hy & ->).
    rewrite get_insert_eq. by rewrite insert_insert_eq.
  - by rewrite Hc.
  - unfold astype_int.
    apply traverse_fixed, Forall_fmap, Forall_forall. intros r' Hr'. simpl.
    apply list_elem_of_lookup in Hr' as [i Hr'].
    destruct (Forall2_lookup_r _ _ _ _ _ Hrows Hr') as (r & _ & y & Hy & ->).
    rewrite get_insert_eq.
    apply astype_int_cell_range in Hy as (z & -> & Hz).
    by apply astype_int_cell_fixed.
Qed.
End idempotence.

(** ** Claims on the silver stage *)

Section silver_claims.
Context `{Parsers}.


(** C6: run again on the tables it has just cleaned, the Cleaner succeeds
    and leaves the tables in memory and the files it wrote exactly as they
    were. *)
Theorem cleaner_idempotent s f cfg w w' S F :
  heap w !! s = Some S → heap w !! f = Some F → s ≠ f →
  processed_dir cfg ∈ dirs w →
  transform_to_silver s f cfg w = (Ok (s, f), w') →
  ∃ w'', transform_to_silver s f cfg w' = (Ok (s, f), w'') ∧
    heap w'' = heap w' ∧ fs w'' = fs w' ∧ dirs w'' = dirs w'.
Proof.
  intros Hs Hf Hne Hdir Hrun.
  destruct (clean_sales S) as [S'|e] eqn:HS.
  2:{ destruct (transform_to_silver_Raise_sales s f cfg w S e Hs HS)
        as (h & Hraise & _). congruence. }
  destruct (clean_forecast F) as [F'|e] eqn:HF.
  2:{ rewrite (transform_to_silver_Raise_forecast s f cfg w S F S' e) in Hrun;
        done. }
  rewrite (transform_to_silver_Ok s f cfg w S F S' F') in Hrun by done.
  injection Hrun as <-.
  eexists. split.
  - apply (transform_to_silver_Ok s f cfg _ S' F' S' F'); simpl; try done.
    + rewrite lookup_insert_ne by done. apply lookup_insert_eq.
    + apply lookup_insert_eq.
    + by apply (clean_sales_idemp S).
    + by apply (clean_forecast_idemp F).
  - simpl. unfold silver_files. split; [|split; [|done]].
    + rewrite (insert_insert_ne _ s f) by done. by rewrite !insert_insert_eq.
    + destruct (decide (path_join (processed_dir cfg) "cleaned_forecast.csv" =
                        path_join (processed_dir cfg) "cleaned_sales.csv"))
        as [Heq|Hpaths].
      * rewrite Heq. by rewrite !insert_insert_eq.
      * rewrite (insert_insert_ne _ (path_join _ "cleaned_sales.csv")
                   (path_join _ "cleaned_forecast.csv")) by done.
        by rewrite !insert_insert_eq.
Qed.

(** C8, as the code has it: the Cleaner raises whenever an order date is
    a string or a number that cannot be parsed, and whenever a forecast
    Year is missing or a string that is no integer literal; nothing is
    returned, no file is written and nothing is reported. *)
Theorem cleaner_rejects_bad_values s f cfg w S F :
  heap w !! s = Some S → heap w !! f = Some F → s ≠ f →
  Exists (λ r, unparseable ((λ r, get r "OrderDate") <$> rows S)
                 (get r "OrderDate")) (rows S) ∨
  Exists (λ r, uncastable (get r "Year")) (rows F) →
  ∃ e w', transform_to_silver s f cfg w = (Raise e, w') ∧
          fs w' = fs w ∧ stdout w' = stdout w ∧ dirs w' = dirs w.
Proof.
  intros Hs Hf Hne Hbad.
  destruct (clean_sales S) as [S'|e] eqn:HS.
  - destruct Hbad as [Hbad|Hbad].
    { apply clean_sales_fails in Hbad as [e He]. congruence. }
    apply clean_forecast_fails in Hbad as [e HF].
    exists e. eexists. split; [by eapply transform_to_silver_Raise_forecast|].
    done.
  - destruct (transform_to_silver_Raise_sales s f cfg w S e Hs HS)
      as (h & Hraise & _).
    exists e. eexists. split; [exact Hraise|]. done.
Qed.

(** C9, as the code has it: the Cleaner works in place.  It returns the
    references it was given and creates no table; after it has run, the
    raw sales and forecast objects hold the cleaned tables, which are also
    what the two cleaned files hold, and every other object is untouched.
    The tables keep their columns and their number of rows. *)
Theorem cleaner_works_in_place s f cfg w S F r w' :
  heap w !! s = Some S → heap w !! f = Some F → s ≠ f →
  transform_to_silver s f cfg w = (Ok r, w') →
  ∃ S' F',
    r = (s, f) ∧
    heap w' !! s = Some S' ∧ heap w' !! f = Some F' ∧
    dom (heap w') = dom (heap w) ∧
    (∀ l, l ≠ s → l ≠ f → heap w' !! l = heap w !! l) ∧
    fs w' !! path_join (processed_dir cfg) "cleaned_sales.csv" =
      Some (Csv S') ∧
    fs w' !! path_join (processed_dir cfg) "cleaned_forecast.csv" =
      Some (Csv F') ∧
    columns S' = columns S ∧ len S' = len S ∧
    columns F' = columns F ∧ len F' = len F ∧
    Forall (λ r', get r' "Name" ≠ Null ∧ get r' "Education" ≠ Null ∧
                  get r' "Occupation" ≠ Null) (rows S') ∧
    Forall (λ r', ∃ z, get r' "Year" = Int z) (rows F').
Proof.
  intros Hs Hf Hne Hrun.
  apply (transform_to_silver_inv s f cfg w S F) in Hrun
    as (-> & Hdir & S' & F' & HS & HF & ->); try done.
  exists S', F'. simpl. split; [done|].
  split; [rewrite lookup_insert_ne by done; apply lookup_insert_eq|].
  split; [apply lookup_insert_eq|].
  split.
  { rewrite !dom_insert_L.
    apply elem_of_dom_2 in Hs, Hf. set_solver. }
  split; [intros l Hls Hlf; by rewrite !lookup_insert_ne|].
  unfold silver_files.
  split.
  { rewrite lookup_insert_ne by by apply path_join_ne.
    apply lookup_insert_eq. }
  split; [apply lookup_insert_eq|].
  apply clean_sales_rows in HS as [HcS HrS].
  apply clean_forecast_rows in HF as [HcF HrF].
  split; [done|]. split; [by apply Forall2_length in HrS|].
  split; [done|]. split; [by apply Forall2_length in HrF|].
  split.
  - apply Forall_forall. intros r' [i Hr']%list_elem_of_lookup.
    destruct (Forall2_lookup_r _ _ _ _ _ HrS Hr') as (r & Hr & d & _ & ->).
    rewrite clean_sales_row_name, clean_sales_row_education,
      clean_sales_row_occupation.
    unfold fill. repeat split; by destruct (get r _).
  - apply Forall_forall. intros r' [i Hr']%list_elem_of_lookup.
    destruct (Forall2_lookup_r _ _ _ _ _ HrF Hr') as (r & Hr & y & Hy & ->).
    rewrite get_insert_eq.
    apply astype_int_cell_range in Hy as (z & -> & _). eauto.
Qed.
End silver_claims.



Lemma cleaner_idempotent_witness :
  ∃ w'', @transform_to_silver sample_parsers 1%positive 2%positive
           sample_config sample_cleaned_world =
         (Ok (1%positive, 2%positive), w'') ∧
    heap w'' = heap sample_cleaned_world ∧ fs w'' = fs sample_cleaned_world ∧
    dirs w'' = dirs sample_cleaned_world.
Proof.
  exact (@cleaner_idempotent sample_parsers 1%positive 2%positive
           sample_config (sample_world sample_sales sample_forecast)
           sample_cleaned_world sample_sales sample_forecast
           ltac:(reflexivity) ltac:(reflexivity) ltac:(done)
           ltac:(compute_done) ltac:(vm_compute; reflexivity)).
Defined.

Lemma cleaner_rejects_bad_values_witness :
  ∃ e w',
    @transform_to_silver sample_parsers 1%positive 2%positive sample_config
      (sample_world sample_sales_bad_date sample_forecast) = (Raise e, w') ∧
    fs w' = fs (sample_world sample_sales_bad_date sample_forecast) ∧
    stdout w' = stdout (sample_world sample_sales_bad_date sample_forecast) ∧
    dirs w' = dirs (sample_world sample_sales_bad_date sample_forecast).
Proof.
  exact (@cleaner_rejects_bad_values sample_parsers 1%positive
           2%positive sample_config
           (sample_world sample_sales_bad_date sample_forecast)
           sample_sales_bad_date sample_forecast
           ltac:(reflexivity) ltac:(reflexivity) ltac:(done)
           ltac:(left; compute_done)).
Defined.

(** C8 as stated fails on the Year: 2023.5 is not an integer, and the
    Cleaner accepts it, writes 2023 and goes on. *)
Lemma cleaner_accepts_fractional_year :
  Exists (λ r, @not_an_integer sample_parsers (get r "Year"))
    (rows sample_forecast_fraction) ∧
  @transform_to_silver sample_parsers 1%positive 2%positive sample_config
    (sample_world sample_sales sample_forecast_fraction) =
  (Ok (1%positive, 2%positive), sample_cleaned_fraction_world) ∧
  ∃ F' y',
    fs sample_cleaned_fraction_world !! "data/processed/cleaned_forecast.csv" =
      Some (Csv F') ∧
    rows F' = [y'] ∧ get y' "Year" = Int 2023.
Proof.
  split; [compute_done|]. split; [vm_compute; reflexivity|].
  do 2 eexists. repeat split; vm_compute; reflexivity.
Qed.

Lemma cleaner_works_in_place_witness :
  ∃ S' F',
    heap sample_cleaned_world !! 1%positive = Some S' ∧
    heap sample_cleaned_world !! 2%positive = Some F' ∧
    dom (heap sample_cleaned_world) =
      dom (heap (sample_world sample_sales sample_forecast)) ∧
    fs sample_cleaned_world !! "data/processed/cleaned_sales.csv" =
      Some (Csv S') ∧
    fs sample_cleaned_world !! "data/processed/cleaned_forecast.csv" =
      Some (Csv F').
Proof.
  destruct (@cleaner_works_in_place sample_parsers 1%positive 2%positive
              sample_config (sample_world sample_sales sample_forecast)
              sample_sales sample_forecast (1%positive, 2%positive)
              sample_cleaned_world
              ltac:(reflexivity) ltac:(reflexivity) ltac:(done)
              ltac:(vm_compute; reflexivity))
    as (S' & F' & _ & HS & HF & Hdom & _ & HfS & HfF & _).
  exists S', F'. split; [exact HS|]. split; [exact HF|].
  split; [exact Hdom|]. split; [exact HfS|exact HfF].
Defined.

(** C9 as stated fails: after the Cleaner has run on the sample, the raw
    sales object and the raw forecast object no longer hold what the
    Extractor gave, and the tables returned are those very objects. *)
Lemma cleaner_mutates_raw_tables :
  heap (sample_world sample_sales sample_forecast) !! 1%positive =
    Some sample_sales ∧
  heap (sample_world sample_sales sample_forecast) !! 2%positive =
    Some sample_forecast ∧
  @transform_to_silver sample_parsers 1%positive 2%positive sample_config
    (sample_world sample_sales sample_forecast) =
  (Ok (1%positive, 2%positive), sample_cleaned_world) ∧
  heap sample_cleaned_world !! 1%positive ≠ Some sample_sales ∧
  heap sample_cleaned_world !! 2%positive ≠ Some sample_forecast.
Proof.
  split; [reflexivity|]. split; [reflexivity|].
  split; [vm_compute; reflexivity|]. split; compute_done.
Qed.

(** ** The integrity check *)

(** C4: the gold stage ends by comparing the number of fact rows with the
    number of sales rows counted before the join.  Equal counts are
    reported as a success, unequal counts as a warning that names the
    difference (the count before the join minus the fact rows); either way
    the check returns, and so does the stage, having written its files and
    its report. *)
Theorem integrity_check_nonfatal s f cfg w sales forecast :
  heap w !! s = Some sales → heap w !! f = Some forecast →
  sales_schema sales → final_dir cfg ∈ dirs w →
  (∀ (input_count : nat) fact w0, ∃ line,
     integrity_check input_count fact w0 =
       (Ok (), set_stdout (λ out, out ++ [line]) w0) ∧
     (len fact = input_count →
      line = "-> Data Integrity Check: Passed (Sales row count maintained)") ∧
     (len fact ≠ input_count →
      line = "!! WARNING: " +:+
             pretty (Z.of_nat input_count - Z.of_nat (len fact)) +:+
             " rows lost during modeling merge!")) ∧
  ∃ g w', build_gold sales = Ok g ∧
    model_to_gold s f cfg w = (Ok (), w') ∧
    stdout w' = stdout w ++ gold_report (len sales) g ∧
    fs w' = gold_files (final_dir cfg) g forecast (fs w) ∧
    heap w' = heap w.
Proof.
  intros Hs Hf Hschema Hdir. split.
  - intros input_count fact w0. eexists.
    split; [apply integrity_check_run|].
    split; intros Hlen; [by rewrite decide_True|by rewrite decide_False].
  - eexists. eexists. split; [by apply build_gold_Ok|].
    split; [apply (model_to_gold_run s f cfg w sales forecast); try done;
            by apply build_gold_Ok|]. done.
Qed.

Lemma integrity_check_nonfatal_witness :
  ∃ g w', build_gold sample_sales = Ok g ∧
    model_to_gold 1%positive 2%positive sample_config
      (sample_world sample_sales sample_forecast) = (Ok (), w') ∧
    stdout w' =
      stdout (sample_world sample_sales sample_forecast) ++
      gold_report (len sample_sales) g.
Proof.
  destruct (integrity_check_nonfatal 1%positive 2%positive sample_config
              (sample_world sample_sales sample_forecast)
              sample_sales sample_forecast
              ltac:(reflexivity) ltac:(reflexivity) ltac:(compute_done)
              ltac:(compute_done))
    as (_ & g & w' & Hg & Hrun & Hout & _).
  exists g, w'. repeat split; assumption.
Defined.

(** ** The whole run *)

Lemma load_config_run w c :
  fs w !! "config.json" = Some (ConfigJson c) → load_config w = (Ok c, w).
Proof. intros Hc. unfold load_config. by rewrite Hc. Qed.

Lemma read_json_records_run dir name w records :
  fs w !! path_join dir name = Some (RecordsJson records) →
  read_json_records dir name w = (Ok (DataFrame_of_records records), w).
Proof. intros Hf. unfold read_json_records. by rewrite Hf. Qed.

Lemma new_run df w :
  new df w =
  (Ok (fresh (dom (heap w))), set_heap <[fresh (dom (heap w)) := df]> w).
Proof. reflexivity. Qed.

Lemma mkdir_run p w : mkdir p w = (Ok (), set_dirs (λ d, {[p]} ∪ d) w).
Proof. reflexivity. Qed.

Lemma setup_environment_run cfg h files ds out :
  setup_environment cfg (mkWorld h files ds out) =
  (Ok (), mkWorld h files
            ({[final_dir cfg]} ∪ ({[processed_dir cfg]} ∪ ({[raw_dir cfg]} ∪ ds)))
            out).
Proof.
  unfold setup_environment.
  do 2 run_step ltac:(apply mkdir_run). by rewrite mkdir_run.
Qed.

Lemma extract_from_raw_run cfg h files ds out rs rf :
  files !! path_join (raw_dir cfg) (sales_file cfg) = Some (RecordsJson rs) →
  files !! path_join (raw_dir cfg) (forecast_file cfg) = Some (RecordsJson rf) →
  let S := DataFrame_of_records rs in
  let F := DataFrame_of_records rf in
  let s := fresh (dom h) in
  let f := fresh (dom (<[s := S]> h)) in
  extract_from_raw cfg (mkWorld h files ds out) =
  (Ok (s, f),
   mkWorld (<[f := F]> (<[s := S]> h)) files ds
           (out ++ bronze_report (len S) (len F))) ∧
  s ≠ f.
Proof.
  intros Hrs Hrf S F s f.
  assert (Hne : s ≠ f).
  { intros Heq. apply (is_fresh (dom (<[s := S]> h))). fold f. rewrite <-Heq.
    rewrite dom_insert_L. set_solver. }
  split; [|done]. unfold extract_from_raw.
  run_step ltac:(by apply read_json_records_run).
  run_step ltac:(apply new_run).
  run_step ltac:(by apply read_json_records_run).
  run_step ltac:(apply new_run).
  run_step ltac:(apply print_run).
  run_step ltac:(apply len_at_run; cbn [heap]; fold S s;
                 rewrite lookup_insert_ne by done; apply lookup_insert_eq).
  run_step ltac:(apply print_run).
  run_step ltac:(apply len_at_run; cbn [heap]; apply lookup_insert_eq).
  run_step ltac:(apply print_run).
  unfold bronze_report. rewrite <-!app_assoc. reflexivity.
Qed.

Section whole_run.
Context `{Parsers}.

Lemma run_etl_Ok h files ds out cfg rs rf S' F' g :
  files !! "config.json" = Some (ConfigJson cfg) →
  files !! path_join (raw_dir cfg) (sales_file cfg) = Some (RecordsJson rs) →
  files !! path_join (raw_dir cfg) (forecast_file cfg) = Some (RecordsJson rf) →
  clean_sales (DataFrame_of_records rs) = Ok S' →
  clean_forecast (DataFrame_of_records rf) = Ok F' →
  build_gold S' = Ok g →
  ∃ h',
    run_etl (mkWorld h files ds out) =
    (Ok (),
     mkWorld h'
       (gold_files (final_dir cfg) g F'
          (silver_files (processed_dir cfg) S' F' files))
       ({[final_dir cfg]} ∪ ({[processed_dir cfg]} ∪ ({[raw_dir cfg]} ∪ ds)))
       (out ++ ["Starting ETL Pipeline..."] ++
        bronze_report (len (DataFrame_of_records rs))
                      (len (DataFrame_of_records rf)) ++
        silver_report (len (DataFrame_of_records rs)) (len S') ++
        gold_report (len S') g ++ success_banner)).
Proof.
  intros Hcfg Hrs Hrf HS HF Hg.
  destruct (extract_from_raw_run cfg h files
              ({[final_dir cfg]} ∪ ({[processed_dir cfg]} ∪ ({[raw_dir cfg]} ∪ ds)))
              (out ++ ["Starting ETL Pipeline..."]) rs rf Hrs Hrf)
    as [Hextract Hne].
  set (S := DataFrame_of_records rs) in *.
  set (F := DataFrame_of_records rf) in *.
  set (s := fresh (dom h)) in *.
  set (f := fresh (dom (<[s := S]> h))) in *.
  eexists. unfold run_etl.
  run_step ltac:(apply print_run).
  run_step ltac:(by apply load_config_run).
  run_step ltac:(apply setup_environment_run).
  run_step ltac:(exact Hextract). cbn [fst snd].
  run_step ltac:(apply (transform_to_silver_Ok s f cfg _ S F S' F');
                 cbn [heap dirs]; try done;
                 [rewrite lookup_insert_ne by done; apply lookup_insert_eq
                 |apply lookup_insert_eq|set_solver]).
  cbn [fst snd].
  run_step ltac:(apply (model_to_gold_run s f cfg _ S' F'); cbn [heap dirs];
                 [rewrite lookup_insert_ne by done; apply lookup_insert_eq
                 |apply lookup_insert_eq|exact Hg|set_solver]).
  do 2 run_step ltac:(apply print_run).
  rewrite print_run. unfold set_stdout. cbn [heap fs dirs stdout].
  unfold success_banner. rewrite <-!app_assoc. reflexivity.
Qed.

(** X1: a run on readable inputs that clean without error goes through the
    three stages, writes the seven files and ends with the banner. *)
Lemma run_etl_completes w cfg rs rf S' F' :
  fs w !! "config.json" = Some (ConfigJson cfg) →
  fs w !! path_join (raw_dir cfg) (sales_file cfg) = Some (RecordsJson rs) →
  fs w !! path_join (raw_dir cfg) (forecast_file cfg) = Some (RecordsJson rf) →
  clean_sales (DataFrame_of_records rs) = Ok S' →
  clean_forecast (DataFrame_of_records rf) = Ok F' →
  sales_schema S' →
  ∃ g w',
    build_gold S' = Ok g ∧ run_etl w = (Ok (), w') ∧
    fs w' = gold_files (final_dir cfg) g F'
              (silver_files (processed_dir cfg) S' F' (fs w)) ∧
    stdout w' =
      stdout w ++ ["Starting ETL Pipeline..."] ++
      bronze_report (len (DataFrame_of_records rs))
                    (len (DataFrame_of_records rf)) ++
      silver_report (len (DataFrame_of_records rs)) (len S') ++
      gold_report (len S') g ++ success_banner.
Proof.
  destruct w as [h files ds out]. cbn [heap fs dirs stdout].
  intros Hcfg Hrs Hrf HS HF Hschema.
  pose proof (build_gold_Ok S' Hschema) as Hg.
  destruct (run_etl_Ok h files ds out cfg rs rf S' F' _ Hcfg Hrs Hrf HS HF Hg)
    as [h' Hrun].
  eexists. eexists. split; [exact Hg|]. split; [exact Hrun|]. done.
Qed.
End whole_run.

(** ** The scenarios of the specification, evaluated *)

Example scenario_one_cleaned :
  (s ← @clean_sales sample_parsers scenario_one;
   n ← getitem "Name" s; e ← getitem "Education" s; o ← getitem "Occupation" s;
   mret (n, e, o)) =
  Ok ([Str "Unknown"], [Str "Not Provided"], [Str "Eng"]).
Proof. vm_compute. reflexivity. Qed.

Example scenario_one_keys :
  geo_keys_of dim_geo scenario_one = Ok [Int 1] ∧
  geo_keys_of fact_sales scenario_one = Ok [Int 1].
Proof. split; vm_compute; reflexivity. Qed.

Example scenario_shared_geography_keys :
  geo_keys_of dim_geo scenario_shared_geography = Ok [Int 1] ∧
  geo_keys_of fact_sales scenario_shared_geography = Ok [Int 1; Int 1].
Proof. split; vm_compute; reflexivity. Qed.

Example scenario_trailing_blank_keys :
  geo_keys_of dim_geo scenario_trailing_blank = Ok [Int 1; Int 2] ∧
  geo_keys_of fact_sales scenario_trailing_blank = Ok [Int 1; Int 2].
Proof. split; vm_compute; reflexivity. Qed.

Example sample_keys :
  geo_keys_of dim_geo sample_sales = Ok [Int 1; Int 2] ∧
  geo_keys_of fact_sales sample_sales = Ok [Int 1; Int 2; Int 1].
Proof. split; vm_compute; reflexivity. Qed.

Example sample_run :
  (@run_etl sample_parsers sample_initial_world).1 = Ok () ∧
  stdout (@run_etl sample_parsers sample_initial_world).2 =
    ["Starting ETL Pipeline...";
     nl +:+ "[BRONZE VALIDATION]";
     "-> Raw Sales Loaded: 3 rows";
     "-> Raw Forecast Loaded: 2 rows";
     nl +:+ "[SILVER VALIDATION]";
     "-> Cleaned Sales: 3 rows (Dropped: 0)";
     nl +:+ "[GOLD VALIDATION]";
     "-> Dim_Product: 1 unique items";
     "-> Dim_Customer: 3 unique customers";
     "-> Fact_Sales: 3 rows";
     "-> Data Integrity Check: Passed (Sales row count maintained)";
     nl +:+ "==============================";
     "ETL SUCCESSFUL";
     "=============================="].
Proof. split; vm_compute; reflexivity. Qed.

(** The warning, on counts that differ. *)
Example integrity_warning :
  stdout (integrity_check 5 scenario_shared_geography
            (mkWorld ∅ ∅ ∅ [])).2 =
  ["!! WARNING: 3 rows lost during modeling merge!"].
Proof. vm_compute. reflexivity. Qed.

(** * Further properties of the stages *)

(** ** What the silver stage keeps and reports *)

Lemma dom_clean_sales_row (r : row) d :
  dom (clean_sales_row r d) =
  {["Occupation"; "Education"; "Name"; "OrderDate"]} ∪ dom r.
Proof.
  unfold clean_sales_row. rewrite !dom_insert_L. set_solver.
Qed.

Section silver_keeps.
Context `{Parsers}.

Lemma clean_sales_rectangular S S' :
  clean_sales S = Ok S' → rectangular S → rectangular S'.
Proof.
  intros HS [Hnd Hrows].
  pose proof (clean_sales_inv S S' HS) as (Hcols & _).
  apply clean_sales_rows in HS as [Hc Hrel].
  split; [by rewrite Hc|]. rewrite Hc.
  apply Forall_forall. intros r' [i Hr']%list_elem_of_lookup.
  destruct (Forall2_lookup_r _ _ _ _ _ Hrel Hr') as (r & Hr & d & _ & ->).
  rewrite Forall_forall in Hrows.
  rewrite dom_clean_sales_row, (Hrows r) by by eapply list_elem_of_lookup_2.
  unfold silver_columns in Hcols. rewrite !Forall_cons in Hcols.
  destruct Hcols as (Hd & Hn & He & Ho & _).
  apply set_eq. intros c. rewrite elem_of_union, !elem_of_list_to_set.
  split; [|by right]. intros [Hc'|Hc']; [|done].
  set_unfold in Hc'. naive_solver.
Qed.

Lemma clean_forecast_rectangular F F' :
  clean_forecast F = Ok F' → rectangular F → rectangular F'.
Proof.
  intros HF [Hnd Hrows].
  pose proof (clean_forecast_inv F F' HF) as (Hcol & _).
  apply clean_forecast_rows in HF as [Hc Hrel].
  split; [by rewrite Hc|]. rewrite Hc.
  apply Forall_forall. intros r' [i Hr']%list_elem_of_lookup.
  destruct (Forall2_lookup_r _ _ _ _ _ Hrel Hr') as (r & Hr & y & _ & ->).
  rewrite Forall_forall in Hrows.
  rewrite dom_insert_L, (Hrows r) by by eapply list_elem_of_lookup_2.
  apply set_eq. intros c. rewrite elem_of_union, !elem_of_list_to_set.
  split; [|by right]. intros [Hc'|Hc']; [|done].
  by apply elem_of_singleton in Hc' as ->.
Qed.

(** X3: the silver stage keeps its tables rectangular: the columns it writes
    are columns the table has, so no label is added and no row gains or
    loses a cell. *)
Theorem cleaner_keeps_rectangular s f cfg w S F r w' :
  heap w !! s = Some S → heap w !! f = Some F → s ≠ f →
  rectangular S → rectangular F →
  transform_to_silver s f cfg w = (Ok r, w') →
  ∃ S' F', heap w' !! s = Some S' ∧ heap w' !! f = Some F' ∧
    rectangular S' ∧ rectangular F' ∧
    columns S' = columns S ∧ columns F' = columns F ∧
    len S' = len S ∧ len F' = len F.
Proof.
  intros Hs Hf Hne HrS HrF Hrun.
  apply (transform_to_silver_inv s f cfg w S F) in Hrun
    as (-> & Hdir & S' & F' & HS & HF & ->); try done.
  exists S', F'. simpl.
  split; [rewrite lookup_insert_ne by done; apply lookup_insert_eq|].
  split; [apply lookup_insert_eq|].
  split; [by eapply clean_sales_rectangular|].
  split; [by eapply clean_forecast_rectangular|].
  apply clean_sales_rows in HS as [HcS HrelS].
  apply clean_forecast_rows in HF as [HcF HrelF].
  apply Forall2_length in HrelS, HrelF. unfold len. by rewrite HrelS, HrelF.
Qed.

(** X4: the silver stage drops no row, and says so: on every run that
    returns it prints the heading and the line with the row count of the raw
    sales table and a drop count of 0. *)
Theorem cleaner_reports_no_drop s f cfg w S F r w' :
  heap w !! s = Some S → heap w !! f = Some F → s ≠ f →
  transform_to_silver s f cfg w = (Ok r, w') →
  stdout w' =
    stdout w ++
    [nl +:+ "[SILVER VALIDATION]";
     "-> Cleaned Sales: " +:+ pretty (len S) +:+ " rows (Dropped: 0)"].
Proof.
  intros Hs Hf Hne Hrun.
  apply (transform_to_silver_inv s f cfg w S F) in Hrun
    as (-> & Hdir & S' & F' & HS & HF & ->); try done.
  simpl. apply clean_sales_rows in HS as [_ Hrel].
  apply Forall2_length in Hrel. unfold silver_report, len.
  rewrite <-Hrel, Z.sub_diag. reflexivity.
Qed.

(** X5: a failure on the forecast comes after the sales table was cleaned
    in place: when the sales table cleans and the forecast does not, the
    stage raises the error of the forecast and writes nothing, yet the
    caller's sales table is left cleaned and the forecast table as it
    was. *)
Theorem cleaner_forecast_failure_after_sales s f cfg w S F S' e :
  heap w !! s = Some S → heap w !! f = Some F → s ≠ f →
  clean_sales S = Ok S' → clean_forecast F = Raise e →
  ∃ w',
    transform_to_silver s f cfg w = (Raise e, w') ∧
    heap w' !! s = Some S' ∧ heap w' !! f = Some F ∧
    Forall (λ r', get r' "Name" ≠ Null ∧ get r' "Education" ≠ Null ∧
                  get r' "Occupation" ≠ Null) (rows S') ∧
    fs w' = fs w ∧ stdout w' = stdout w.
Proof.
  intros Hs Hf Hne HS HF.
  eexists.
  split; [by eapply transform_to_silver_Raise_forecast|]. simpl.
  split; [apply lookup_insert_eq|].
  split; [by rewrite lookup_insert_ne|]. split; [|done].
  apply clean_sales_rows in HS as [_ Hrel].
  apply Forall_forall. intros r' [i Hr']%list_elem_of_lookup.
  destruct (Forall2_lookup_r _ _ _ _ _ Hrel Hr') as (r & Hr & d & _ & ->).
  rewrite clean_sales_row_name, clean_sales_row_education,
    clean_sales_row_occupation.
  unfold fill. repeat split; by destruct (get r _).
Qed.

End silver_keeps.

Lemma cleaner_keeps_rectangular_witness :
  ∃ S' F', heap sample_cleaned_world !! 1%positive = Some S' ∧
    heap sample_cleaned_world !! 2%positive = Some F' ∧
    rectangular S' ∧ rectangular F'.
Proof.
  destruct (@cleaner_keeps_rectangular sample_parsers 1%positive 2%positive
              sample_config (sample_world sample_sales sample_forecast)
              sample_sales sample_forecast (1%positive, 2%positive)
              sample_cleaned_world
              ltac:(reflexivity) ltac:(reflexivity) ltac:(done)
              ltac:(compute_done) ltac:(compute_done)
              ltac:(vm_compute; reflexivity))
    as (S' & F' & HS & HF & HrS & HrF & _).
  exists S', F'. split; [exact HS|]. split; [exact HF|].
  split; [exact HrS|exact HrF].
Defined.

Lemma cleaner_reports_no_drop_witness :
  stdout sample_cleaned_world =
  [nl +:+ "[SILVER VALIDATION]"; "-> Cleaned Sales: 3 rows (Dropped: 0)"].
Proof.
  exact (@cleaner_reports_no_drop sample_parsers 1%positive 2%positive
           sample_config (sample_world sample_sales sample_forecast)
           sample_sales sample_forecast (1%positive, 2%positive)
           sample_cleaned_world
           ltac:(reflexivity) ltac:(reflexivity) ltac:(done)
           ltac:(vm_compute; reflexivity)).
Defined.

Lemma cleaner_forecast_failure_after_sales_witness :
  ∃ w',
    @transform_to_silver sample_parsers 1%positive 2%positive sample_config
      (sample_world sample_sales sample_forecast_null_year) =
    (Raise (IntCastError Null), w') ∧
    heap w' !! 1%positive = Some sample_silver_sales ∧
    heap w' !! 2%positive = Some sample_forecast_null_year.
Proof.
  destruct (@cleaner_forecast_failure_after_sales sample_parsers 1%positive
              2%positive sample_config
              (sample_world sample_sales sample_forecast_null_year)
              sample_sales sample_forecast_null_year sample_silver_sales
              (IntCastError Null)
              ltac:(reflexivity) ltac:(reflexivity) ltac:(done)
              ltac:(vm_compute; reflexivity) ltac:(vm_compute; reflexivity))
    as (w' & Hrun & HS & HF & _).
  exists w'. split; [exact Hrun|]. split; [exact HS|exact HF].
Defined.

(** ** The tables of the gold stage *)

Lemma get_fact_row_key (s d : row) : get (fact_row s d) "GeoKey" = get d "GeoKey".
Proof.
  unfold fact_row. rewrite !get_insert_ne by done. apply get_insert_eq.
Qed.

Lemma get_fact_row_sale (s d : row) c :
  c ∈ fact_columns → c ≠ "GeoKey" → get (fact_row s d) c = get s c.
Proof.
  unfold fact_columns, fact_row. intros Hc Hne.
  set_unfold in Hc.
  destruct Hc as [->|[->|[->|[->|[->|[->|[]]]]]]]; try done;
    rewrite ?get_insert_ne by done; apply get_insert_eq.
Qed.

(** With one match for each sale, the join maps the sales rows one by one,
    in their order. *)
Lemma inner_join_rows (S D : list row) :
  Forall (λ s, ∃ d, filter (geo_equal s) D = [d]) S →
  Forall2 (λ s f, ∃ d, filter (geo_equal s) D = [d] ∧ f = fact_row s d)
    S (inner_join_on_geo S D).
Proof.
  unfold inner_join_on_geo. induction 1 as [|s S [d Hd] _ IH]; [constructor|].
  rewrite bind_cons, Hd. simpl. constructor; [by exists d|done].
Qed.

Lemma fact_rows_spec sales :
  Forall2 (λ s f, ∃ d, filter (geo_equal s) (rows (dim_geo_of sales)) = [d] ∧
                       f = fact_row s d)
    (rows sales) (inner_join_on_geo (rows sales) (rows (dim_geo_of sales))).
Proof.
  apply inner_join_rows, Forall_forall. intros s Hs.
  destruct (one_match sales s (geo_tuple_in_dim sales s Hs)) as (d & Hd & _).
  by exists d.
Qed.

Lemma filter_singleton_elem {A} (P : A → Prop) `{∀ x, Decision (P x)} l x :
  filter P l = [x] → x ∈ l ∧ P x.
Proof.
  intros Hf. assert (Hx : x ∈ filter P l) by (rewrite Hf; left).
  apply list_elem_of_filter in Hx. tauto.
Qed.

Lemma dim_geo_row_key sales (d : row) :
  d ∈ rows (dim_geo_of sales) →
  ∃ k : nat, rows (dim_geo_of sales) !! k = Some d ∧
             get d "GeoKey" = Int (Z.of_nat k + 1) ∧
             (k < len (dim_geo_of sales))%nat.
Proof.
  intros [k Hk]%list_elem_of_lookup. exists k. split; [done|].
  pose proof (lookup_lt_Some _ _ _ Hk) as Hlt. split; [|done].
  simpl in Hk. apply keyed_lookup_inv in Hk as (t & _ & ->).
  rewrite get_insert_eq. f_equal. lia.
Qed.

(** The rows of the geography dimension are told apart by their key. *)
Lemma dim_geo_key_inj sales (d e : row) :
  d ∈ rows (dim_geo_of sales) → e ∈ rows (dim_geo_of sales) →
  get d "GeoKey" = get e "GeoKey" → d = e.
Proof.
  intros (i & Hi & Hki & _)%dim_geo_row_key (j & Hj & Hkj & _)%dim_geo_row_key.
  rewrite Hki, Hkj. intros Heq%Int_inj.
  assert (i = j) as -> by lia. congruence.
Qed.

(** X6: the i-th row of the fact table is made from the i-th sale: it keeps
    the sale's product, customer, date, quantity and price, and its GeoKey
    is the key, between 1 and len(dim_geo), of the one row of the geography
    dimension that has the sale's geography. *)
Theorem fact_rows_follow_sales sales :
  sales_schema sales →
  ∃ g, build_gold sales = Ok g ∧
    Forall2 (λ s f,
      get f "ProductKey" = get s "ProductKey" ∧
      get f "CustomerKey" = get s "CustomerKey" ∧
      get f "OrderDate" = get s "OrderDate" ∧
      get f "Quantity" = get s "Quantity" ∧
      get f "Net Price" = get s "Net Price" ∧
      ∃ (k : nat) d,
        rows (dim_geo g) !! k = Some d ∧ geo_equal s d ∧
        get d "GeoKey" = Int (Z.of_nat k + 1) ∧
        get f "GeoKey" = Int (Z.of_nat k + 1) ∧
        (k < len (dim_geo g))%nat)
      (rows sales) (rows (fact_sales g)).
Proof.
  intros Hschema. eexists. split; [by apply build_gold_Ok|]. simpl.
  eapply Forall2_impl; [apply fact_rows_spec|].
  intros s f (d & Hd & ->). simpl.
  rewrite !get_fact_row_sale by (unfold fact_columns; set_solver).
  do 5 (split; [done|]).
  apply filter_singleton_elem in Hd as [Hin Heq].
  destruct (dim_geo_row_key sales d Hin) as (k & Hk & Hkey & Hlt).
  exists k, d. by rewrite get_fact_row_key.
Qed.

Lemma fact_rows_follow_sales_witness :
  ∃ g, build_gold sample_sales = Ok g ∧
       length (rows (fact_sales g)) = length (rows sample_sales).
Proof.
  destruct (fact_rows_follow_sales sample_sales ltac:(compute_done))
    as (g & Hg & Hrows).
  exists g. split; [exact Hg|]. symmetry. exact (Forall2_length _ _ _ Hrows).
Defined.

(** X7: two sales get the same GeoKey exactly when they have the same
    geography, missing values included. *)
Theorem same_key_iff_same_geography sales :
  sales_schema sales →
  ∃ g, build_gold sales = Ok g ∧
    ∀ (i j : nat) s t f1 f2,
      rows sales !! i = Some s → rows sales !! j = Some t →
      rows (fact_sales g) !! i = Some f1 →
      rows (fact_sales g) !! j = Some f2 →
      get f1 "GeoKey" = get f2 "GeoKey" ↔ geo_equal s t.
Proof.
  intros Hschema. eexists. split; [by apply build_gold_Ok|]. simpl.
  intros i j s t f1 f2 Hs Ht Hf1 Hf2.
  pose proof (fact_rows_spec sales) as Hrows.
  destruct (Forall2_lookup_lr _ _ _ _ _ _ Hrows Hs Hf1) as (d1 & Hd1 & ->).
  destruct (Forall2_lookup_lr _ _ _ _ _ _ Hrows Ht Hf2) as (d2 & Hd2 & ->).
  rewrite !get_fact_row_key.
  pose proof (filter_singleton_elem _ _ _ Hd1) as [Hin1 Heq1].
  pose proof (filter_singleton_elem _ _ _ Hd2) as [Hin2 Heq2].
  apply geo_equal_project in Heq1, Heq2. split.
  - intros Hkey. assert (d1 = d2) as -> by by eapply dim_geo_key_inj.
    apply geo_equal_project. congruence.
  - intros Hst%geo_equal_project.
    assert (Hd : d1 ∈ filter (geo_equal t) (rows (dim_geo_of sales))).
    { apply list_elem_of_filter. split; [|done].
      apply geo_equal_project. congruence. }
    rewrite Hd2 in Hd. by apply list_elem_of_singleton in Hd as ->.
Qed.

Lemma same_key_iff_same_geography_witness :
  ∃ g, build_gold sample_sales = Ok g ∧
    getitem "GeoKey" (fact_sales g) = Ok [Int 1; Int 2; Int 1].
Proof.
  destruct (same_key_iff_same_geography sample_sales ltac:(compute_done))
    as (g & Hg & _).
  exists g. split; [exact Hg|].
  assert (Hgold : build_gold sample_sales = Ok sample_gold)
    by (vm_compute; reflexivity).
  rewrite Hgold in Hg. apply Ok_inj in Hg. subst g. vm_compute. reflexivity.
Defined.

(** X8: the product and customer dimensions hold every combination of
    attributes that occurs in the sales, once each, and nothing else. *)
Theorem dimensions_distinct_and_complete sales :
  sales_schema sales →
  ∃ g, build_gold sales = Ok g ∧
    columns (dim_product g) = product_columns ∧
    columns (dim_customer g) = customer_columns ∧
    NoDup (rows (dim_product g)) ∧ NoDup (rows (dim_customer g)) ∧
    (∀ t, t ∈ rows (dim_product g) ↔
          ∃ s, s ∈ rows sales ∧ t = project product_columns s) ∧
    (∀ t, t ∈ rows (dim_customer g) ↔
          ∃ s, s ∈ rows sales ∧ t = project customer_columns s).
Proof.
  intros Hschema. eexists. split; [by apply build_gold_Ok|]. simpl.
  split; [done|]. split; [done|].
  split; [apply NoDup_unique|]. split; [apply NoDup_unique|].
  split; intros t; rewrite elem_of_unique, list_elem_of_fmap; naive_solver.
Qed.

Lemma dimensions_distinct_and_complete_witness :
  ∃ g, build_gold sample_sales = Ok g ∧
    NoDup (rows (dim_product g)) ∧ NoDup (rows (dim_customer g)).
Proof.
  destruct (dimensions_distinct_and_complete sample_sales ltac:(compute_done))
    as (g & Hg & _ & _ & Hp & Hc & _).
  exists g. split; [exact Hg|]. split; [exact Hp|exact Hc].
Defined.

Lemma dom_dim_geo_row sales (d : row) :
  d ∈ rows (dim_geo_of sales) →
  dom d = list_to_set (columns (dim_geo_of sales)).
Proof.
  intros [k Hk]%list_elem_of_lookup. simpl in Hk.
  apply keyed_lookup_inv in Hk as (t & Ht & ->).
  apply list_elem_of_lookup_2, geo_tuples_projected in Ht.
  rewrite dom_insert_L, <-Ht, dom_project. simpl. set_solver.
Qed.

(** X9: every table of the star schema is rectangular, with the columns the
    script selects for it (and GeoKey after the four geography columns). *)
Theorem gold_tables_rectangular sales :
  sales_schema sales →
  ∃ g, build_gold sales = Ok g ∧
    columns (dim_product g) = product_columns ∧
    columns (dim_customer g) = customer_columns ∧
    columns (dim_geo g) = geo_columns ++ ["GeoKey"] ∧
    columns (fact_sales g) = fact_columns ∧
    rectangular (dim_product g) ∧ rectangular (dim_customer g) ∧
    rectangular (dim_geo g) ∧ rectangular (fact_sales g).
Proof.
  intros Hschema. eexists. split; [by apply build_gold_Ok|]. simpl.
  do 4 (split; [done|]). unfold rectangular. simpl.
  split; [|split; [|split]]; (split; [compute_done|]); apply Forall_forall.
  - intros t (s & -> & _)%elem_of_unique%list_elem_of_fmap. apply dom_project.
  - intros t (s & -> & _)%elem_of_unique%list_elem_of_fmap. apply dom_project.
  - intros d Hd. by apply (dom_dim_geo_row sales).
  - intros t (s & d & _ & _ & _ & ->)%elem_of_inner_join. apply dom_fact_row.
Qed.

Lemma gold_tables_rectangular_witness :
  ∃ g, build_gold sample_sales = Ok g ∧
    rectangular (dim_geo g) ∧ rectangular (fact_sales g).
Proof.
  destruct (gold_tables_rectangular sample_sales ltac:(compute_done))
    as (g & Hg & _ & _ & _ & _ & _ & _ & Hgeo & Hfact).
  exists g. split; [exact Hg|]. split; [exact Hgeo|exact Hfact].
Defined.

(** ** What the gold stage writes and prints *)

(** X10: the gold stage leaves both tables it reads as they are, makes no
    directory, and writes five files and no other: each table of the star
    schema under its name, and the forecast exactly as it received it. *)
Theorem gold_writes_five_files s f cfg w sales forecast :
  heap w !! s = Some sales → heap w !! f = Some forecast →
  sales_schema sales → final_dir cfg ∈ dirs w →
  ∃ g w', build_gold sales = Ok g ∧
    model_to_gold s f cfg w = (Ok (), w') ∧
    heap w' = heap w ∧ dirs w' = dirs w ∧
    fs w' !! path_join (final_dir cfg) "fact_sales.csv" =
      Some (Csv (fact_sales g)) ∧
    fs w' !! path_join (final_dir cfg) "fact_forecast.csv" =
      Some (Csv forecast) ∧
    fs w' !! path_join (final_dir cfg) "dim_product.csv" =
      Some (Csv (dim_product g)) ∧
    fs w' !! path_join (final_dir cfg) "dim_customer.csv" =
      Some (Csv (dim_customer g)) ∧
    fs w' !! path_join (final_dir cfg) "dim_geo.csv" =
      Some (Csv (dim_geo g)) ∧
    (∀ p, p ∉ path_join (final_dir cfg) <$>
                ["fact_sales.csv"; "fact_forecast.csv"; "dim_product.csv";
                 "dim_customer.csv"; "dim_geo.csv"] →
          fs w' !! p = fs w !! p).
Proof.
  intros Hs Hf Hschema Hdir.
  pose proof (build_gold_Ok sales Hschema) as Hg.
  eexists. eexists. split; [exact Hg|].
  split; [by apply (model_to_gold_run s f cfg w sales forecast)|].
  cbn [heap fs dirs]. split; [done|]. split; [done|].
  unfold gold_files.
  repeat (split;
    [rewrite ?lookup_insert_ne by (by apply path_join_ne);
     apply lookup_insert_eq|]).
  intros p Hp. rewrite !lookup_insert_ne; [done|..];
    intros <-; apply Hp; set_solver.
Qed.

Lemma gold_writes_five_files_witness :
  ∃ g w', build_gold sample_sales = Ok g ∧
    model_to_gold 1%positive 2%positive sample_config
      (sample_world sample_sales sample_forecast) = (Ok (), w') ∧
    heap w' = heap (sample_world sample_sales sample_forecast) ∧
    fs w' !! "data/final/fact_forecast.csv" = Some (Csv sample_forecast).
Proof.
  destruct (gold_writes_five_files 1%positive 2%positive sample_config
              (sample_world sample_sales sample_forecast)
              sample_sales sample_forecast
              ltac:(reflexivity) ltac:(reflexivity) ltac:(compute_done)
              ltac:(compute_done))
    as (g & w' & Hg & Hrun & Hheap & _ & _ & Hforecast & _).
  exists g, w'. split; [exact Hg|]. split; [exact Hrun|].
  split; [exact Hheap|exact Hforecast].
Defined.

(** X11: the check of the gold stage cannot fail on a table the stage
    accepts: the count of fact rows it prints is the count of sales rows,
    and the last line is the success line, never the warning. *)
Theorem gold_reports_passed s f cfg w sales forecast :
  heap w !! s = Some sales → heap w !! f = Some forecast →
  sales_schema sales → final_dir cfg ∈ dirs w →
  ∃ g w', build_gold sales = Ok g ∧
    model_to_gold s f cfg w = (Ok (), w') ∧
    stdout w' =
      stdout w ++
      [nl +:+ "[GOLD VALIDATION]";
       "-> Dim_Product: " +:+ pretty (len (dim_product g)) +:+ " unique items";
       "-> Dim_Customer: " +:+ pretty (len (dim_customer g)) +:+
         " unique customers";
       "-> Fact_Sales: " +:+ pretty (len sales) +:+ " rows";
       "-> Data Integrity Check: Passed (Sales row count maintained)"].
Proof.
  intros Hs Hf Hschema Hdir.
  pose proof (build_gold_Ok sales Hschema) as Hg.
  eexists. eexists. split; [exact Hg|].
  split; [by apply (model_to_gold_run s f cfg w sales forecast)|].
  cbn [stdout]. unfold gold_report, len. cbn [fact_sales rows].
  rewrite fact_len. by rewrite decide_True.
Qed.

Lemma gold_reports_passed_witness :
  ∃ g w', build_gold sample_sales = Ok g ∧
    model_to_gold 1%positive 2%positive sample_config
      (sample_world sample_sales sample_forecast) = (Ok (), w') ∧
    last (stdout w') =
      Some "-> Data Integrity Check: Passed (Sales row count maintained)".
Proof.
  destruct (gold_reports_passed 1%positive 2%positive sample_config
              (sample_world sample_sales sample_forecast)
              sample_sales sample_forecast
              ltac:(reflexivity) ltac:(reflexivity) ltac:(compute_done)
              ltac:(compute_done))
    as (g & w' & Hg & Hrun & Hout).
  exists g, w'. split; [exact Hg|]. split; [exact Hrun|].
  rewrite Hout. reflexivity.
Defined.

(** ** The tables the gold stage accepts *)

Lemma getitems_cases cols df :
  (Forall (λ c, c ∈ columns df) cols ∧
   getitems cols df = Ok (mkDF cols (project cols <$> rows df))) ∨
  (∃ c, getitems cols df = Raise (KeyError c) ∧ c ∈ cols ∧ c ∉ columns df).
Proof.
  unfold getitems.
  destruct (list_find _ cols) as [[i c]|] eqn:Hfind.
  - right. apply list_find_Some in Hfind as (Hi & Hc & _).
    exists c. split; [done|]. split; [by eapply list_elem_of_lookup_2|done].
  - left. split; [|done]. rewrite list_find_None in Hfind.
    eapply Forall_impl; [exact Hfind|]. intros c Hc. simpl in Hc.
    by apply dec_stable.
Qed.

(** What the join makes of a label of the sales table: itself, unless the
    label is GeoKey, which the dimension has too. *)
Lemma suffixed_cases sales suffix c :
  suffixed sales (dim_geo_of sales) geo_columns suffix c = c ∨
  (c = "GeoKey" ∧ "GeoKey" ∈ columns sales ∧
   suffixed sales (dim_geo_of sales) geo_columns suffix c = c +:+ suffix).
Proof.
  unfold suffixed, overlap. case_bool_decide as Hov; [|by left].
  right. destruct Hov as (Hk & Hl & Hr). simpl in Hr.
  unfold geo_columns in Hk.
  assert (c = "GeoKey") as -> by set_solver. done.
Qed.

Lemma merge_dim_geo_inv sales m :
  merge sales (dim_geo_of sales) geo_columns = Ok m →
  NoDup (columns sales) ∧
  columns m =
    (suffixed sales (dim_geo_of sales) geo_columns "_x" <$> columns sales) ++
    [suffixed sales (dim_geo_of sales) geo_columns "_y" "GeoKey"].
Proof.
  unfold merge. destruct (list_find _ geo_columns) as [[i k]|]; [done|].
  cbv zeta. rewrite right_columns.
  destruct (decide (NoDup _)) as [Hnd|]; [|done].
  intros [= <-]. split; [|done].
  apply NoDup_app in Hnd as (Hnd & _). by eapply NoDup_fmap_1.
Qed.

(** X13: the gold stage builds its tables exactly for the sales tables that
    have distinct labels, every column the stage reads, and no column named
    GeoKey; on every other table it raises. *)
Theorem gold_accepts_exactly_schema sales :
  (∃ g, build_gold sales = Ok g) ↔ sales_schema sales.
Proof.
  split; [|intros Hschema; eexists; by apply build_gold_Ok].
  intros [g Hg]. unfold build_gold in Hg.
  destruct (getitems_cases product_columns sales)
    as [[Hp Hgp]|(c & Hgp & _)]; rewrite Hgp in Hg; [|done].
  destruct (getitems_cases customer_columns sales)
    as [[Hc Hgc]|(c & Hgc & _)]; rewrite Hgc in Hg; [|done].
  destruct (getitems_cases geo_columns sales)
    as [[Hge Hgg]|(c & Hgg & _)]; rewrite Hgg in Hg; [|done].
  simpl in Hg. rewrite dim_geo_setitem in Hg. simpl in Hg.
  destruct (merge sales (dim_geo_of sales) geo_columns) as [m|] eqn:Hm; [|done].
  simpl in Hg. apply merge_dim_geo_inv in Hm as [Hnd Hlabels].
  destruct (getitems_cases fact_columns m)
    as [[Hf Hgf]|(c & Hgf & _)]; rewrite Hgf in Hg; [|done].
  rewrite Hlabels in Hf. clear Hg Hgp Hgc Hgg Hgf.
  assert (Hkey : "GeoKey" ∉ columns sales).
  { intros Hin. rewrite Forall_forall in Hf.
    specialize (Hf "GeoKey" ltac:(unfold fact_columns; set_solver)).
    apply elem_of_app in Hf as [Hf|Hf].
    - apply list_elem_of_fmap in Hf as (c & Hc' & _).
      destruct (suffixed_cases sales "_x" c) as [Heq|(-> & _ & Heq)];
        rewrite Heq in Hc'.
      + subst c. unfold suffixed, overlap in Heq.
        rewrite bool_decide_eq_true_2 in Heq; [done|].
        split; [unfold geo_columns; set_solver|]. split; [done|].
        simpl. set_solver.
      + done.
    - apply list_elem_of_singleton in Hf.
      unfold suffixed, overlap in Hf.
      rewrite bool_decide_eq_true_2 in Hf; [done|].
      split; [unfold geo_columns; set_solver|]. split; [done|].
      simpl. set_solver. }
  split; [done|]. split; [|done].
  unfold required_columns. rewrite !Forall_app.
  split; [done|]. split; [done|]. split; [done|].
  rewrite Forall_forall in Hf. apply Forall_forall. intros c Hc'.
  specialize (Hf c ltac:(unfold fact_columns; set_solver)).
  apply elem_of_app in Hf as [Hf|Hf].
  - apply list_elem_of_fmap in Hf as (c' & Heq & Hin).
    destruct (suffixed_cases sales "_x" c') as [Hs|(-> & Hk & _)];
      [by rewrite Hs in Heq; subst|done].
  - apply list_elem_of_singleton in Hf.
    destruct (suffixed_cases sales "_y" "GeoKey") as [Hs|(_ & Hk & _)];
      [|done].
    rewrite Hs in Hf. subst c. set_solver.
Qed.

Lemma model_to_gold_Raise s f cfg w sales e :
  heap w !! s = Some sales → build_gold sales = Raise e →
  model_to_gold s f cfg w = (Raise e, w).
Proof.
  intros Hs Hg. unfold model_to_gold.
  erewrite run_bind_Ok by by apply len_at_run.
  erewrite run_bind_Ok by by apply deref_run.
  by erewrite run_bind_Raise by (unfold lift; by rewrite Hg).
Qed.

(** X14: a sales table that lacks a column of one of the three dimensions
    makes the gold stage raise a KeyError that names a missing column, with
    nothing written and nothing printed. *)
Theorem gold_missing_dimension_column s f cfg w sales :
  heap w !! s = Some sales →
  Exists (λ c, c ∉ columns sales)
    (product_columns ++ customer_columns ++ geo_columns) →
  ∃ c, c ∈ product_columns ++ customer_columns ++ geo_columns ∧
       c ∉ columns sales ∧
       build_gold sales = Raise (KeyError c) ∧
       model_to_gold s f cfg w = (Raise (KeyError c), w).
Proof.
  intros Hs Hmiss.
  assert (∃ c, c ∈ product_columns ++ customer_columns ++ geo_columns ∧
               c ∉ columns sales ∧ build_gold sales = Raise (KeyError c))
    as (c & Hc & Hnc & Hg).
  { unfold build_gold.
    destruct (getitems_cases product_columns sales)
      as [[Hp Hgp]|(c & Hgp & Hc & Hnc)]; rewrite Hgp;
      [|exists c; set_solver].
    destruct (getitems_cases customer_columns sales)
      as [[Hcu Hgc]|(c & Hgc & Hc & Hnc)]; rewrite Hgc;
      [|exists c; set_solver].
    destruct (getitems_cases geo_columns sales)
      as [[Hge Hgg]|(c & Hgg & Hc & Hnc)]; rewrite Hgg;
      [|exists c; set_solver].
    exfalso. rewrite !Exists_app, !Exists_exists in Hmiss.
    rewrite Forall_forall in Hp, Hcu, Hge. naive_solver. }
  exists c. split; [done|]. split; [done|]. split; [done|].
  by apply (model_to_gold_Raise s f cfg w sales).
Qed.

Lemma gold_missing_dimension_column_witness :
  ∃ c, build_gold (DataFrame_of_records []) = Raise (KeyError c) ∧
       model_to_gold 1%positive 2%positive sample_config
         (sample_world (DataFrame_of_records []) sample_forecast) =
       (Raise (KeyError c),
        sample_world (DataFrame_of_records []) sample_forecast).
Proof.
  destruct (gold_missing_dimension_column 1%positive 2%positive sample_config
              (sample_world (DataFrame_of_records []) sample_forecast)
              (DataFrame_of_records [])
              ltac:(reflexivity) ltac:(compute_done))
    as (c & _ & _ & Hg & Hrun).
  exists c. split; [exact Hg|exact Hrun].
Defined.

Section geokey_column.
Context (sales : DataFrame).
Context (Hnd : NoDup (columns sales)).
Context (Hreq : Forall (λ c, c ∈ columns sales) required_columns).
Context (Hkey : "GeoKey" ∈ columns sales).
Context (Hx : "GeoKey_x" ∉ columns sales).
Context (Hy : "GeoKey_y" ∉ columns sales).

Lemma suffixed_key suffix :
  suffixed sales (dim_geo_of sales) geo_columns suffix "GeoKey" =
  "GeoKey" +:+ suffix.
Proof.
  unfold suffixed, overlap. rewrite bool_decide_eq_true_2; [done|].
  split; [unfold geo_columns; set_solver|]. split; [done|]. simpl. set_solver.
Qed.

Lemma suffixed_other suffix c :
  c ≠ "GeoKey" →
  suffixed sales (dim_geo_of sales) geo_columns suffix c = c.
Proof. intros Hne. by destruct (suffixed_cases sales suffix c) as [|[? _]]. Qed.

Lemma renamed_labels_NoDup :
  NoDup ((suffixed sales (dim_geo_of sales) geo_columns "_x" <$> columns sales)
         ++ [suffixed sales (dim_geo_of sales) geo_columns "_y" "GeoKey"]).
Proof.
  apply NoDup_app. split; [|split; [|apply NoDup_singleton]].
  - apply NoDup_fmap_2_strong; [|done]. intros a b Ha Hb.
    destruct (decide (a = "GeoKey")) as [->|Hna],
             (decide (b = "GeoKey")) as [->|Hnb]; [done|..].
    + rewrite suffixed_key, suffixed_other by done. intros <-. done.
    + rewrite suffixed_key, suffixed_other by done. intros ->. done.
    + by rewrite !suffixed_other.
  - intros c (a & -> & Ha)%list_elem_of_fmap Hin%list_elem_of_singleton.
    rewrite suffixed_key in Hin.
    destruct (decide (a = "GeoKey")) as [->|Hna].
    + by rewrite suffixed_key in Hin.
    + rewrite suffixed_other in Hin by done. by subst a.
Qed.

Lemma key_not_in_renamed :
  "GeoKey" ∉
    (suffixed sales (dim_geo_of sales) geo_columns "_x" <$> columns sales)
    ++ [suffixed sales (dim_geo_of sales) geo_columns "_y" "GeoKey"].
Proof.
  intros [Hin|Hin]%elem_of_app.
  - apply list_elem_of_fmap in Hin as (a & Heq & Ha).
    destruct (decide (a = "GeoKey")) as [->|Hna].
    + by rewrite suffixed_key in Heq.
    + rewrite suffixed_other in Heq by done. by subst a.
  - apply list_elem_of_singleton in Hin. by rewrite suffixed_key in Hin.
Qed.

Lemma build_gold_with_key : build_gold sales = Raise (KeyError "GeoKey").
Proof.
  unfold build_gold. pose proof Hreq as Hreq'.
  unfold required_columns in Hreq'.
  rewrite !Forall_app in Hreq'. destruct Hreq' as (Hp & Hc & Hg & Hrest).
  rewrite !getitems_Ok by done. simpl.
  rewrite dim_geo_setitem. simpl. unfold merge.
  destruct (list_find _ geo_columns) as [[i k]|] eqn:Hfind.
  { apply list_find_Some in Hfind as (Hi & [Hk|Hk] & _); exfalso; apply Hk.
    - rewrite Forall_forall in Hg. by eapply Hg, list_elem_of_lookup_2.
    - change (k ∈ geo_columns ++ ["GeoKey"]). apply elem_of_app. left.
      by eapply list_elem_of_lookup_2. }
  cbv zeta. rewrite right_columns.
  rewrite decide_True by apply renamed_labels_NoDup. simpl.
  unfold getitems. cbn [columns].
  destruct (list_find _ fact_columns) as [[i c]|] eqn:Hfact.
  - apply list_find_Some in Hfact as (Hi & Hc' & Hfirst).
    destruct i as [|[|[|i]]].
    + exfalso. injection Hi as <-. apply Hc', elem_of_app. left.
      apply list_elem_of_fmap. exists "ProductKey".
      rewrite suffixed_other by done. split; [done|].
      rewrite Forall_forall in Hp. apply Hp. unfold product_columns. set_solver.
    + exfalso. injection Hi as <-. apply Hc', elem_of_app. left.
      apply list_elem_of_fmap. exists "CustomerKey".
      rewrite suffixed_other by done. split; [done|].
      rewrite Forall_forall in Hc. apply Hc. unfold customer_columns. set_solver.
    + by injection Hi as <-.
    + exfalso. apply (Hfirst 2%nat "GeoKey"); [done|lia|].
      apply key_not_in_renamed.
  - exfalso. rewrite list_find_None, Forall_forall in Hfact.
    apply (Hfact "GeoKey"); [unfold fact_columns; set_solver|].
    apply key_not_in_renamed.
Qed.
End geokey_column.

(** X15: a sales table that already has a column named GeoKey is refused:
    the join renames the two GeoKey columns, so the selection of the fact
    columns finds none and raises KeyError('GeoKey'); nothing is written. *)
Theorem gold_refuses_geokey_column s f cfg w sales :
  heap w !! s = Some sales →
  NoDup (columns sales) →
  Forall (λ c, c ∈ columns sales) required_columns →
  "GeoKey" ∈ columns sales →
  "GeoKey_x" ∉ columns sales → "GeoKey_y" ∉ columns sales →
  build_gold sales = Raise (KeyError "GeoKey") ∧
  model_to_gold s f cfg w = (Raise (KeyError "GeoKey"), w).
Proof.
  intros Hs Hnd Hreq Hkey Hx Hy.
  pose proof (build_gold_with_key sales Hnd Hreq Hkey Hx Hy) as Hg.
  split; [done|]. by apply (model_to_gold_Raise s f cfg w sales).
Qed.

Lemma gold_refuses_geokey_column_witness :
  build_gold sample_sales_with_key = Raise (KeyError "GeoKey") ∧
  model_to_gold 1%positive 2%positive sample_config
    (sample_world sample_sales_with_key sample_forecast) =
  (Raise (KeyError "GeoKey"),
   sample_world sample_sales_with_key sample_forecast).
Proof.
  exact (gold_refuses_geokey_column 1%positive 2%positive sample_config
           (sample_world sample_sales_with_key sample_forecast)
           sample_sales_with_key
           ltac:(reflexivity) ltac:(compute_done) ltac:(compute_done)
           ltac:(compute_done) ltac:(compute_done) ltac:(compute_done)).
Defined.

(** ** The bronze stage *)

Lemma lookup_records_absent (kvs : list (string * cell)) c :
  c ∉ kvs.*1 → (list_to_map (reverse kvs) : row) !! c = None.
Proof.
  intros Hc. apply not_elem_of_list_to_map_1.
  by rewrite fmap_reverse, elem_of_reverse.
Qed.

Lemma lookup_records_last (before after : list (string * cell)) c v :
  c ∉ after.*1 →
  (list_to_map (reverse (before ++ (c, v) :: after)) : row) !! c = Some v.
Proof.
  intros Hc. rewrite reverse_app, reverse_cons, <-app_assoc.
  rewrite list_to_map_app. apply lookup_union_Some_raw. right.
  split; [by apply lookup_records_absent|].
  simpl. apply lookup_insert_eq.
Qed.

Lemma elem_of_columns_records (records : list (list (string * cell))) c :
  c ∈ columns (DataFrame_of_records records) ↔
  ∃ kvs, kvs ∈ records ∧ c ∈ kvs.*1.
Proof. simpl. rewrite elem_of_unique, list_elem_of_bind. naive_solver. Qed.

(** X16: the frame built from an array of records is rectangular, has one
    row per record in the order of the array and one column per key that
    occurs; where a record has no such key its cell holds a missing value,
    and where the last value it gives for the key is a string, that
    string. *)
Theorem records_frame_rectangular records :
  rectangular (DataFrame_of_records records) ∧
  len (DataFrame_of_records records) = length records ∧
  (∀ c, c ∈ columns (DataFrame_of_records records) ↔
        ∃ kvs, kvs ∈ records ∧ c ∈ kvs.*1) ∧
  ∀ (i : nat) kvs r c,
    records !! i = Some kvs →
    rows (DataFrame_of_records records) !! i = Some r →
    (c ∉ kvs.*1 → get r c = Null) ∧
    (∀ before v after,
       kvs = before ++ (c, Str v) :: after → c ∉ after.*1 →
       get r c = Str v).
Proof.
  pose proof (elem_of_columns_records records) as Hcols.
  split; [|split; [|split; [exact Hcols|]]].
  - split; [apply NoDup_unique|]. simpl.
    apply Forall_forall. intros r (kvs & -> & _)%list_elem_of_fmap.
    apply dom_project.
  - unfold len. simpl. by rewrite length_fmap.
  - intros i kvs r c Hi Hr. simpl in Hr.
    rewrite list_lookup_fmap, Hi in Hr. injection Hr as <-.
    fold (columns (DataFrame_of_records records)). split.
    + intros Hc. unfold get. rewrite lookup_project.
      destruct (decide (c ∈ _)); [|done].
      unfold get. by rewrite lookup_records_absent.
    + intros before v after -> Hc. rewrite get_project.
      * unfold get. by rewrite lookup_records_last.
      * apply Hcols. eexists. split; [by eapply list_elem_of_lookup_2|].
        rewrite fmap_app, fmap_cons. set_solver.
Qed.

(** X17: the Extractor makes two new tables and touches nothing else: the
    references it returns are distinct and were free, every table that
    existed is as it was, no file and no directory is changed, and the
    report gives the two row counts. *)
Theorem extractor_makes_two_new_tables cfg w rs rf :
  fs w !! path_join (raw_dir cfg) (sales_file cfg) = Some (RecordsJson rs) →
  fs w !! path_join (raw_dir cfg) (forecast_file cfg) = Some (RecordsJson rf) →
  ∃ s f w',
    extract_from_raw cfg w = (Ok (s, f), w') ∧
    s ≠ f ∧ heap w !! s = None ∧ heap w !! f = None ∧
    heap w' !! s = Some (DataFrame_of_records rs) ∧
    heap w' !! f = Some (DataFrame_of_records rf) ∧
    (∀ l df, heap w !! l = Some df → heap w' !! l = Some df) ∧
    fs w' = fs w ∧ dirs w' = dirs w ∧
    stdout w' =
      stdout w ++
      [nl +:+ "[BRONZE VALIDATION]";
       "-> Raw Sales Loaded: " +:+ pretty (length rs) +:+ " rows";
       "-> Raw Forecast Loaded: " +:+ pretty (length rf) +:+ " rows"].
Proof.
  destruct w as [h files ds out]. cbn [heap fs dirs stdout]. intros Hrs Hrf.
  destruct (extract_from_raw_run cfg h files ds out rs rf Hrs Hrf)
    as [Hrun Hne].
  set (S := DataFrame_of_records rs) in *.
  set (s := fresh (dom h)) in *.
  set (f := fresh (dom (<[s := S]> h))) in *.
  assert (Hs : h !! s = None) by apply not_elem_of_dom, is_fresh.
  assert (Hf : h !! f = None).
  { apply not_elem_of_dom. intros Hin.
    apply (is_fresh (dom (<[s := S]> h))). fold f.
    rewrite dom_insert_L. set_solver. }
  exists s, f. eexists. split; [exact Hrun|]. cbn [heap fs dirs stdout].
  split; [done|]. split; [done|]. split; [done|].
  split; [rewrite lookup_insert_ne by done; apply lookup_insert_eq|].
  split; [apply lookup_insert_eq|].
  split.
  { intros l df Hl. rewrite !lookup_insert_ne; [done|congruence..]. }
  split; [done|]. split; [done|].
  unfold bronze_report, len, S. simpl. by rewrite !length_fmap.
Qed.

Lemma extractor_makes_two_new_tables_witness :
  ∃ s f w',
    extract_from_raw sample_config sample_initial_world = (Ok (s, f), w') ∧
    s ≠ f ∧
    heap w' !! s = Some sample_sales ∧ heap w' !! f = Some sample_forecast.
Proof.
  destruct (extractor_makes_two_new_tables sample_config sample_initial_world
              sample_sales_records sample_forecast_records
              ltac:(vm_compute; reflexivity) ltac:(vm_compute; reflexivity))
    as (s & f & w' & Hrun & Hne & _ & _ & Hs & Hf & _).
  exists s, f, w'. split; [exact Hrun|]. split; [exact Hne|].
  split; [exact Hs|exact Hf].
Defined.

(** ** The run *)

Lemma read_json_records_missing dir name w :
  fs w !! path_join dir name = None →
  read_json_records dir name w =
  (Raise (FileNotFoundError (path_join dir name)), w).
Proof. intros Hf. unfold read_json_records. by rewrite Hf. Qed.

Lemma extract_from_raw_missing cfg h files ds out :
  files !! path_join (raw_dir cfg) (sales_file cfg) = None ∨
  ((∃ rs, files !! path_join (raw_dir cfg) (sales_file cfg) =
          Some (RecordsJson rs)) ∧
   files !! path_join (raw_dir cfg) (forecast_file cfg) = None) →
  ∃ p h', extract_from_raw cfg (mkWorld h files ds out) =
          (Raise (FileNotFoundError p), mkWorld h' files ds out) ∧
          files !! p = None ∧
          p ∈ path_join (raw_dir cfg) <$> [sales_file cfg; forecast_file cfg].
Proof.
  intros [Hs|[[rs Hs] Hf]]; unfold extract_from_raw.
  - eexists. exists h. split; [|split; [exact Hs|set_solver]].
    by erewrite run_bind_Raise by by apply read_json_records_missing.
  - eexists. eexists. split; [|split; [exact Hf|set_solver]].
    run_step ltac:(by apply read_json_records_run).
    run_step ltac:(apply new_run).
    by erewrite run_bind_Raise by by apply read_json_records_missing.
Qed.

Section run_failures.
Context `{Parsers}.

Lemma run_etl_no_config w :
  fs w !! "config.json" = None →
  run_etl w =
  (Raise (FileNotFoundError "config.json"),
   mkWorld (heap w) (fs w) (dirs w) (stdout w ++ ["Starting ETL Pipeline..."])).
Proof.
  destruct w as [h files ds out]. cbn [heap fs dirs stdout].
  intros Hcfg. unfold run_etl.
  run_step ltac:(apply print_run).
  erewrite run_bind_Raise; [reflexivity|].
  unfold load_config. cbn [fs]. by rewrite Hcfg.
Qed.

Lemma run_etl_no_raw w cfg :
  fs w !! "config.json" = Some (ConfigJson cfg) →
  fs w !! path_join (raw_dir cfg) (sales_file cfg) = None ∨
  ((∃ rs, fs w !! path_join (raw_dir cfg) (sales_file cfg) =
          Some (RecordsJson rs)) ∧
   fs w !! path_join (raw_dir cfg) (forecast_file cfg) = None) →
  ∃ p w', run_etl w = (Raise (FileNotFoundError p), w') ∧
    fs w !! p = None ∧ fs w' = fs w ∧
    stdout w' = stdout w ++ ["Starting ETL Pipeline..."].
Proof.
  destruct w as [h files ds out]. cbn [heap fs dirs stdout].
  intros Hcfg Hraw. unfold run_etl.
  destruct (extract_from_raw_missing cfg h files
              ({[final_dir cfg]} ∪ ({[processed_dir cfg]} ∪
                                    ({[raw_dir cfg]} ∪ ds)))
              (out ++ ["Starting ETL Pipeline..."]) Hraw)
    as (p & h' & Hextract & Hp & _).
  exists p. eexists. split; [|split; [exact Hp|]].
  - run_step ltac:(apply print_run).
    run_step ltac:(by apply load_config_run).
    run_step ltac:(apply setup_environment_run).
    by erewrite run_bind_Raise by exact Hextract.
  - done.
Qed.

(** With its three inputs in place a run gets to the silver stage: the
    two raw tables are loaded under distinct references, the directories
    are there, and no file has been touched. *)
Lemma run_etl_reaches_silver w cfg rs rf :
  fs w !! "config.json" = Some (ConfigJson cfg) →
  fs w !! path_join (raw_dir cfg) (sales_file cfg) = Some (RecordsJson rs) →
  fs w !! path_join (raw_dir cfg) (forecast_file cfg) = Some (RecordsJson rf) →
  ∃ s f W,
    s ≠ f ∧
    heap W !! s = Some (DataFrame_of_records rs) ∧
    heap W !! f = Some (DataFrame_of_records rf) ∧
    fs W = fs w ∧ processed_dir cfg ∈ dirs W ∧ final_dir cfg ∈ dirs W ∧
    stdout W =
      stdout w ++ ["Starting ETL Pipeline..."] ++
      bronze_report (len (DataFrame_of_records rs))
                    (len (DataFrame_of_records rf)) ∧
    run_etl w =
    (silver ← transform_to_silver s f cfg;
     model_to_gold silver.1 silver.2 cfg;;
     print (nl +:+ "==============================");;
     print "ETL SUCCESSFUL";;
     print "==============================") W.
Proof.
  destruct w as [h files ds out]. cbn [heap fs dirs stdout].
  intros Hcfg Hrs Hrf.
  destruct (extract_from_raw_run cfg h files
              ({[final_dir cfg]} ∪ ({[processed_dir cfg]} ∪ ({[raw_dir cfg]} ∪ ds)))
              (out ++ ["Starting ETL Pipeline..."]) rs rf Hrs Hrf)
    as [Hextract Hne].
  set (S := DataFrame_of_records rs) in *.
  set (F := DataFrame_of_records rf) in *.
  set (s := fresh (dom h)) in *.
  set (f := fresh (dom (<[s := S]> h))) in *.
  exists s, f. eexists.
  split; [exact Hne|].
  split; [|split; [|split; [|split; [|split; [|split]]]]]; last first.
  - unfold run_etl.
    run_step ltac:(apply print_run).
    run_step ltac:(by apply load_config_run).
    run_step ltac:(apply setup_environment_run).
    run_step ltac:(exact Hextract). cbn [fst snd]. reflexivity.
  - cbn [stdout]. by rewrite <-app_assoc.
  - cbn [dirs]. set_solver.
  - cbn [dirs]. set_solver.
  - reflexivity.
  - cbn [heap]. apply lookup_insert_eq.
  - cbn [heap]. rewrite lookup_insert_ne by done. apply lookup_insert_eq.
Qed.

(** X19: a run that lacks its configuration or one of its two raw files
    stops with FileNotFoundError for that file, having printed its first
    line only and written nothing. *)
Theorem run_needs_its_inputs w cfg :
  fs w !! "config.json" = None ∨
  (fs w !! "config.json" = Some (ConfigJson cfg) ∧
   (fs w !! path_join (raw_dir cfg) (sales_file cfg) = None ∨
    ((∃ rs, fs w !! path_join (raw_dir cfg) (sales_file cfg) =
            Some (RecordsJson rs)) ∧
     fs w !! path_join (raw_dir cfg) (forecast_file cfg) = None))) →
  ∃ p w', run_etl w = (Raise (FileNotFoundError p), w') ∧
    fs w !! p = None ∧ fs w' = fs w ∧
    stdout w' = stdout w ++ ["Starting ETL Pipeline..."].
Proof.
  intros [Hcfg|[Hcfg Hraw]].
  - exists "config.json". eexists.
    split; [by apply run_etl_no_config|]. done.
  - by apply (run_etl_no_raw w cfg).
Qed.

(** X20: a run whose tables do not clean stops in the silver stage with the
    error of the conversion: the report of the bronze stage is the last
    thing printed, and no file is written, cleaned or final. *)
Theorem run_stops_when_cleaning_fails w cfg rs rf e :
  fs w !! "config.json" = Some (ConfigJson cfg) →
  fs w !! path_join (raw_dir cfg) (sales_file cfg) = Some (RecordsJson rs) →
  fs w !! path_join (raw_dir cfg) (forecast_file cfg) = Some (RecordsJson rf) →
  clean_sales (DataFrame_of_records rs) = Raise e ∨
  ((∃ S', clean_sales (DataFrame_of_records rs) = Ok S') ∧
   clean_forecast (DataFrame_of_records rf) = Raise e) →
  ∃ w', run_etl w = (Raise e, w') ∧ fs w' = fs w ∧
    stdout w' =
      stdout w ++ ["Starting ETL Pipeline..."] ++
      bronze_report (len (DataFrame_of_records rs))
                    (len (DataFrame_of_records rf)).
Proof.
  intros Hcfg Hrs Hrf Hbad.
  destruct (run_etl_reaches_silver w cfg rs rf Hcfg Hrs Hrf)
    as (s & f & W & Hne & HWs & HWf & Hfs & _ & _ & Hout & Hrun).
  rewrite Hrun, <-Hfs, <-Hout.
  destruct Hbad as [HS|[[S' HS] HF]].
  - destruct (transform_to_silver_Raise_sales s f cfg W _ e HWs HS)
      as (h' & Hraise & _).
    eexists. split; [by erewrite run_bind_Raise by exact Hraise|]. done.
  - eexists. split.
    + erewrite run_bind_Raise; [reflexivity|].
      by apply (transform_to_silver_Raise_forecast s f cfg W
                  (DataFrame_of_records rs) (DataFrame_of_records rf) S').
    + done.
Qed.

(** X21: a sales file none of whose records has an OrderDate, an empty array
    in particular, stops the run in the silver stage with
    KeyError('OrderDate'): the table built from it has no such column.
    Nothing is written. *)
Theorem run_fails_without_order_date w cfg rs rf :
  fs w !! "config.json" = Some (ConfigJson cfg) →
  fs w !! path_join (raw_dir cfg) (sales_file cfg) = Some (RecordsJson rs) →
  fs w !! path_join (raw_dir cfg) (forecast_file cfg) = Some (RecordsJson rf) →
  Forall (λ kvs : list (string * cell), "OrderDate" ∉ kvs.*1) rs →
  ∃ w', run_etl w = (Raise (KeyError "OrderDate"), w') ∧ fs w' = fs w.
Proof.
  intros Hcfg Hrs Hrf Hkeys.
  destruct (run_etl_reaches_silver w cfg rs rf Hcfg Hrs Hrf)
    as (s & f & W & Hne & HWs & HWf & Hfs & _ & _ & _ & Hrun).
  assert (HS : clean_sales (DataFrame_of_records rs) =
               Raise (KeyError "OrderDate")).
  { unfold clean_sales, convert_column, getitem. rewrite decide_False; [done|].
    intros (kvs & Hin & Hc)%elem_of_columns_records.
    rewrite Forall_forall in Hkeys. by apply (Hkeys kvs). }
  destruct (transform_to_silver_Raise_sales s f cfg W _ _ HWs HS)
    as (h' & Hraise & _).
  rewrite Hrun, <-Hfs. eexists.
  split; [by erewrite run_bind_Raise by exact Hraise|]. done.
Qed.

End run_failures.

Lemma run_needs_its_inputs_witness :
  ∃ p w', @run_etl sample_parsers sample_world_no_forecast =
          (Raise (FileNotFoundError p), w') ∧
    fs w' = fs sample_world_no_forecast ∧
    stdout w' = ["Starting ETL Pipeline..."].
Proof.
  destruct (@run_needs_its_inputs sample_parsers sample_world_no_forecast
              sample_config
              ltac:(right; split; [vm_compute; reflexivity|];
                    right; split; [eexists; vm_compute; reflexivity
                                  |vm_compute; reflexivity]))
    as (p & w' & Hrun & _ & Hfs & Hout).
  exists p, w'. split; [exact Hrun|]. split; [exact Hfs|exact Hout].
Defined.

Lemma run_stops_when_cleaning_fails_witness :
  ∃ w', @run_etl sample_parsers sample_world_bad_date =
        (Raise (DateParseError (Str "yesterday")), w') ∧
    fs w' = fs sample_world_bad_date.
Proof.
  destruct (@run_stops_when_cleaning_fails sample_parsers sample_world_bad_date
              sample_config
              [sale (Str "Ann") (Str "BSc") (Str "Eng") (Str "A") (Str "S1")
                    (Str "yesterday")]
              sample_forecast_records (DateParseError (Str "yesterday"))
              ltac:(vm_compute; reflexivity) ltac:(vm_compute; reflexivity)
              ltac:(vm_compute; reflexivity)
              ltac:(left; vm_compute; reflexivity))
    as (w' & Hrun & Hfs & _).
  exists w'. split; [exact Hrun|exact Hfs].
Defined.

Lemma run_fails_without_order_date_witness :
  ∃ w', @run_etl sample_parsers sample_world_empty_sales =
        (Raise (KeyError "OrderDate"), w') ∧
    fs w' = fs sample_world_empty_sales.
Proof.
  exact (@run_fails_without_order_date sample_parsers sample_world_empty_sales
           sample_config [] sample_forecast_records
           ltac:(vm_compute; reflexivity) ltac:(vm_compute; reflexivity)
           ltac:(vm_compute; reflexivity) ltac:(constructor)).
Defined.

Lemma run_etl_completes_witness :
  ∃ g w', build_gold sample_silver_sales = Ok g ∧
    @run_etl sample_parsers sample_initial_world = (Ok (), w') ∧
    fs w' = gold_files "data/final" g sample_silver_forecast
              (silver_files "data/processed" sample_silver_sales
                 sample_silver_forecast (fs sample_initial_world)).
Proof.
  destruct (@run_etl_completes sample_parsers sample_initial_world
              sample_config sample_sales_records sample_forecast_records
              sample_silver_sales sample_silver_forecast
              ltac:(vm_compute; reflexivity) ltac:(vm_compute; reflexivity)
              ltac:(vm_compute; reflexivity) ltac:(vm_compute; reflexivity)
              ltac:(vm_compute; reflexivity) ltac:(compute_done))
    as (g & w' & Hg & Hrun & Hfs & _).
  exists g, w'. split; [exact Hg|]. split; [exact Hrun|exact Hfs].
Defined.
